(** * Hotel housekeeping admin UI: calendar view and task manager

    A shallow embedding of the script blocks of
    [frontend/src/components/CalendarView.vue] and
    [frontend/src/components/HousekeepingTaskManager.vue], together with
    the ECMAScript library routines they call ([Date], [parseInt],
    [Array.prototype.sort], [fetch]).

    Conventions.
    - A time value, a width or a count, which only ever holds an
      integer, is a [Z], and [NaN] in its place is [None]; the Numbers
      rooms are sorted by are binary64 values ([JsNumber]).
    - The host's time zone is a parameter of everything that reads or
      writes the local time of a [Date].
    - A [ref] of the component is a field of the component's [State]
      record; handlers pass the state explicitly.
    - An [async] handler is a resumption: it runs synchronously up to its
      next [await fetch(...)], publishes the state it has reached together
      with the request, and continues from whatever state the component
      is in when the response arrives. *)

From Stdlib Require Import ZArith List String Ascii Bool Lia.
From Stdlib Require Import Permutation Sorted.
From ExtLib Require Import Structures.Monad.
Import ListNotations.
Import MonadNotation.

Local Open Scope Z_scope.

(* ===================================================================== *)
(** * ECMAScript time values (ECMA-262, "Date Objects") *)
(* ===================================================================== *)

Module JsDate.

Definition msPerDay : Z := 86400000.
Definition msPerHour : Z := 3600000.
Definition msPerMinute : Z := 60000.
Definition msPerSecond : Z := 1000.

Definition Day (t : Z) : Z := t / msPerDay.
Definition TimeWithinDay (t : Z) : Z := t mod msPerDay.

Definition DaysInYear (y : Z) : Z :=
  if negb (y mod 4 =? 0) then 365
  else if negb (y mod 100 =? 0) then 366
  else if negb (y mod 400 =? 0) then 365
  else 366.

Definition DayFromYear (y : Z) : Z :=
  365 * (y - 1970) + (y - 1969) / 4 - (y - 1901) / 100 + (y - 1601) / 400.

Definition TimeFromYear (y : Z) : Z := msPerDay * DayFromYear y.

(** "The largest integer y such that TimeFromYear(y) <= t".  The mean
    Gregorian year has 146097/400 days, which places the answer within
    one of the estimate [y0]; [YearFromTime_spec] below checks the
    defining property. *)
Definition YearFromTime (t : Z) : Z :=
  let d := Day t in
  let y0 := 1970 + (400 * d) / 146097 in
  if DayFromYear (y0 + 1) <=? d then y0 + 1
  else if DayFromYear y0 <=? d then y0
  else y0 - 1.

Definition InLeapYear (t : Z) : Z :=
  if DaysInYear (YearFromTime t) =? 366 then 1 else 0.

Definition DayWithinYear (t : Z) : Z := Day t - DayFromYear (YearFromTime t).

Definition MonthFromTime (t : Z) : Z :=
  let d := DayWithinYear t in
  let leap := InLeapYear t in
  if d <? 31 then 0
  else if d <? 59 + leap then 1
  else if d <? 90 + leap then 2
  else if d <? 120 + leap then 3
  else if d <? 151 + leap then 4
  else if d <? 181 + leap then 5
  else if d <? 212 + leap then 6
  else if d <? 243 + leap then 7
  else if d <? 273 + leap then 8
  else if d <? 304 + leap then 9
  else if d <? 334 + leap then 10
  else 11.

Definition DateFromTime (t : Z) : Z :=
  let d := DayWithinYear t in
  let leap := InLeapYear t in
  match MonthFromTime t with
  | 0 => d + 1
  | 1 => d - 30
  | 2 => d - 58 - leap
  | 3 => d - 89 - leap
  | 4 => d - 119 - leap
  | 5 => d - 150 - leap
  | 6 => d - 180 - leap
  | 7 => d - 211 - leap
  | 8 => d - 242 - leap
  | 9 => d - 272 - leap
  | 10 => d - 303 - leap
  | _ => d - 333 - leap
  end.

Definition HourFromTime (t : Z) : Z := (t / msPerHour) mod 24.
Definition MinFromTime (t : Z) : Z := (t / msPerMinute) mod 60.
Definition SecFromTime (t : Z) : Z := (t / msPerSecond) mod 60.
Definition msFromTime (t : Z) : Z := t mod msPerSecond.

(** Number of days from 1 January to the first day of month [mn]
    (0-based) in a year with [leap] extra days. *)
Definition DaysBeforeMonth (mn leap : Z) : Z :=
  match mn with
  | 0 => 0
  | 1 => 31
  | 2 => 59 + leap
  | 3 => 90 + leap
  | 4 => 120 + leap
  | 5 => 151 + leap
  | 6 => 181 + leap
  | 7 => 212 + leap
  | 8 => 243 + leap
  | 9 => 273 + leap
  | 10 => 304 + leap
  | _ => 334 + leap
  end.

(** MakeDay(year, month, date): "find a time value t such that
    YearFromTime(t) is ym, MonthFromTime(t) is mn and DateFromTime(t)
    is 1; return Day(t) + dt - 1".  The day number of that [t] is
    written out; [MakeDay_first_of_month] below checks it against the
    three conditions. *)
Definition MakeDay (year month date : Z) : Z :=
  let ym := year + month / 12 in
  let mn := month mod 12 in
  let leap := if DaysInYear ym =? 366 then 1 else 0 in
  DayFromYear ym + DaysBeforeMonth mn leap + date - 1.

Definition MakeDate (day time : Z) : Z := day * msPerDay + time.

(** TimeClip: a time value further than 8.64e15 ms from the epoch is
    not representable and becomes NaN. *)
Definition maxTime : Z := 8640000000000000.

Definition TimeClip (time : Z) : option Z :=
  if Z.abs time >? maxTime then None else Some time.

(** A [Date] object is its [[DateValue]]: a time value or NaN. *)
Definition Date : Type := option Z.

(** The host's time zone, as LocalTZA(t, isUTC) of ECMA-262, in
    milliseconds.  [zone t true] is the offset of local time from UTC
    at the instant [t].  [zone t false] is the offset under which the
    local time value [t] is read: the offset in force at that local
    time, and the offset before the clock change for a local time that
    the change skips or repeats. *)
Definition TimeZone : Type := Z -> bool -> Z.

(** A zone without clock changes. *)
Definition fixedOffset (tza : Z) : TimeZone := fun _ _ => tza.

(** America/New_York in 2024: five hours west of Greenwich, four from
    10 March 07:00 UTC (02:00 local time becomes 03:00) to 3 November
    06:00 UTC (02:00 local time becomes 01:00). *)
Definition newYork2024 : TimeZone :=
  fun t isUTC =>
    if isUTC then
      if t <? 1710054000000 then -18000000
      else if t <? 1730613600000 then -14400000
      else -18000000
    else
      if t <? 1710039600000 then -18000000
      else if t <? 1730599200000 then -14400000
      else -18000000.

(** Pacific/Apia around the end of 2011: ten hours west of Greenwich
    until 30 December 10:00 UTC, fourteen hours east from then on, so
    that local time passes from the end of 29 December to the start of
    31 December. *)
Definition apia2011 : TimeZone :=
  fun t isUTC =>
    if isUTC then
      if t <? 1325239200000 then -36000000 else 50400000
    else
      if t <? 1325289600000 then -36000000 else 50400000.

Section HostTimeZone.

Variable LocalTZA : TimeZone.

Definition LocalTime (t : Z) : Z := t + LocalTZA t true.
Definition UTC (t : Z) : Z := t - LocalTZA t false.

(** The zone reads the local time [x] as an instant of the same local
    calendar day.  This holds of every local time that exists, and of
    one skipped by a clock change unless the skipped stretch runs
    across midnight. *)
Definition keepsDay (x : Z) : Prop := Day (LocalTime (UTC x)) = Day x.

(** [new Date(value)] for a [value] that is itself a Date. *)
Definition newDate (value : Date) : Date :=
  match value with
  | Some tv => TimeClip tv
  | None => None
  end.

(** [Date.prototype.getDate()]; [None] is NaN. *)
Definition getDate (d : Date) : option Z :=
  match d with
  | Some t => Some (DateFromTime (LocalTime t))
  | None => None
  end.

(** [Date.prototype.setDate(dt)]; returns the mutated object. *)
Definition setDate (d : Date) (dt : option Z) : Date :=
  match d with
  | None => None
  | Some t0 =>
    match dt with
    | None => None
    | Some dt =>
      let t := LocalTime t0 in
      let newDate :=
        MakeDate (MakeDay (YearFromTime t) (MonthFromTime t) dt)
                 (TimeWithinDay t) in
      TimeClip (UTC newDate)
    end
  end.

End HostTimeZone.

(** ** [Date.prototype.toISOString] *)

Definition digit (n : Z) : ascii := ascii_of_nat (48 + Z.to_nat n).

(** The last [width] decimal digits of [n], zero padded. *)
Fixpoint padded (width : nat) (n : Z) : string :=
  match width with
  | O => EmptyString
  | S w => (padded w (n / 10) ++ String (digit (n mod 10)) EmptyString)%string
  end.

Definition isoYear (y : Z) : string :=
  if (0 <=? y) && (y <=? 9999) then padded 4 y
  else if 0 <=? y then ("+" ++ padded 6 y)%string
  else ("-" ++ padded 6 (- y))%string.

(** [None] stands for the RangeError thrown on an invalid date. *)
Definition toISOString (d : Date) : option string :=
  match d with
  | None => None
  | Some t =>
    Some (isoYear (YearFromTime t) ++ "-" ++ padded 2 (MonthFromTime t + 1)
          ++ "-" ++ padded 2 (DateFromTime t)
          ++ "T" ++ padded 2 (HourFromTime t)
          ++ ":" ++ padded 2 (MinFromTime t)
          ++ ":" ++ padded 2 (SecFromTime t)
          ++ "." ++ padded 3 (msFromTime t) ++ "Z")%string
  end.

(** The calendar date part of the ISO string. *)
Definition isoDate (t : Z) : string :=
  (isoYear (YearFromTime t) ++ "-" ++ padded 2 (MonthFromTime t + 1)
   ++ "-" ++ padded 2 (DateFromTime t))%string.

(** [s] holds no code unit [sep]. *)
Fixpoint freeOf (sep : ascii) (s : string) : bool :=
  match s with
  | EmptyString => true
  | String c rest => negb (Ascii.eqb c sep) && freeOf sep rest
  end.

(** [s.split(sep)[0]]: the part of [s] before the first [sep]. *)
Fixpoint split_first (sep : ascii) (s : string) : string :=
  match s with
  | EmptyString => EmptyString
  | String c rest =>
    if Ascii.eqb c sep then EmptyString else String c (split_first sep rest)
  end.

End JsDate.

(* ===================================================================== *)
(** * ECMAScript Numbers, as far as integers go *)
(* ===================================================================== *)

(** The Number values the room sort meets: NaN, the two infinities,
    and finite values that are integers ([parseInt] returns no other
    finite value, and the difference of two integral Numbers is
    integral).  A finite value is held as the integer it denotes; the
    functions below return only integers a binary64 float can hold.
    Negative zero is not told apart from zero: [||], subtraction and
    the sign tests of [sort] treat the two alike. *)
Module JsNumber.

Inductive Number := NaN | Infinity (negative : bool) | Finite (v : Z).

(** 𝔽(n), the Number for a mathematical integer [n]: the nearest
    binary64 value, ties to the even significand, and an infinity from
    2^1024 - 2^970 on.  Integers below 2^53 in absolute value are held
    exactly; above, one unit in the last of the 53 bits of the
    significand is [ulp]. *)
Definition ofInteger (n : Z) : Number :=
  let a := Z.abs n in
  if a <? 2 ^ 53 then Finite n
  else
    let ulp := 2 ^ (Z.log2 a - 52) in
    let q := a / ulp in
    let r := a mod ulp in
    let q := if 2 * r <? ulp then q
             else if ulp <? 2 * r then q + 1
             else if Z.even q then q else q + 1 in
    if q * ulp >=? 2 ^ 1024 then Infinity (n <? 0)
    else Finite (Z.sgn n * (q * ulp)).

(** ToBoolean: NaN and zero are falsy. *)
Definition truthy (x : Number) : bool :=
  match x with
  | NaN => false
  | Finite 0 => false
  | _ => true
  end.

(** [x || y]. *)
Definition or (x y : Number) : Number := if truthy x then x else y.

(** [x - y]. *)
Definition sub (x y : Number) : Number :=
  match x, y with
  | NaN, _ => NaN
  | _, NaN => NaN
  | Infinity n, Infinity m => if Bool.eqb n m then NaN else Infinity n
  | Infinity n, Finite _ => Infinity n
  | Finite _, Infinity m => Infinity (negb m)
  | Finite a, Finite b => ofInteger (a - b)
  end.

(** [x > 0]. *)
Definition isPositive (x : Number) : bool :=
  match x with
  | NaN => false
  | Infinity n => negb n
  | Finite v => v >? 0
  end.

(** [x <= y]. *)
Definition leb (x y : Number) : bool :=
  match x, y with
  | NaN, _ => false
  | _, NaN => false
  | Infinity true, _ => true
  | _, Infinity false => true
  | Infinity false, _ => false
  | _, Infinity true => false
  | Finite a, Finite b => a <=? b
  end.

(** [x === y]. *)
Definition eqb (x y : Number) : bool :=
  match x, y with
  | Infinity n, Infinity m => Bool.eqb n m
  | Finite a, Finite b => a =? b
  | _, _ => false
  end.

(** A Number other than NaN whose value, when finite, is within the
    range of binary64. *)
Definition comparable (x : Number) : bool :=
  match x with
  | NaN => false
  | Infinity _ => true
  | Finite v => Z.abs v <? 2 ^ 1024
  end.

(** The place of a comparable Number on the line of integers, the
    infinities just outside the finite range. *)
Definition rank (x : Number) : Z :=
  match x with
  | NaN => 0
  | Infinity n => if n then - 2 ^ 1024 else 2 ^ 1024
  | Finite v => v
  end.

End JsNumber.

(* ===================================================================== *)
(** * ECMAScript strings: [parseInt] and URL query encoding *)
(* ===================================================================== *)

(** Strings are sequences of code units; the model covers the code units
    below 256 (Latin-1), which is where room labels, ids and ISO dates
    live. *)
Module JsString.

Definition code (c : ascii) : Z := Z.of_nat (nat_of_ascii c).

(** WhiteSpace and LineTerminator code units: TAB, LF, VT, FF, CR, SP
    and NBSP. *)
Definition isWhiteSpace (c : ascii) : bool :=
  let n := code c in
  ((9 <=? n) && (n <=? 13)) || (n =? 32) || (n =? 160).

Fixpoint trimStart (s : string) : string :=
  match s with
  | String c rest => if isWhiteSpace c then trimStart rest else s
  | EmptyString => s
  end.

Definition digitValue (c : ascii) : option Z :=
  let n := code c in
  if (48 <=? n) && (n <=? 57) then Some (n - 48)
  else if (97 <=? n) && (n <=? 122) then Some (n - 87)
  else if (65 <=? n) && (n <=? 90) then Some (n - 55)
  else None.

Definition radixDigit (R : Z) (c : ascii) : option Z :=
  match digitValue c with
  | Some v => if v <? R then Some v else None
  | None => None
  end.

(** Value of the longest prefix of radix-[R] digits; [acc] is [None]
    until a first digit has been read. *)
Fixpoint parseDigits (R : Z) (s : string) (acc : option Z) : option Z :=
  match s with
  | EmptyString => acc
  | String c rest =>
    match radixDigit R c with
    | Some v =>
      parseDigits R rest
        (Some (R * match acc with Some a => a | None => 0 end + v))
    | None => acc
    end
  end.

(** [parseInt(string)] with no radix argument: NaN when the trimmed
    string has no digit after the optional sign and radix prefix,
    otherwise the Number for the signed value of the longest prefix of
    digits.  (For more than 20 significant decimal digits the
    specification lets an implementation read the digits after the
    20th as zeros; the value is rounded from all the digits here.) *)
Definition parseInt (inputString : string) : JsNumber.Number :=
  let str := trimStart inputString in
  let sign := match str with String "-" _ => -1 | _ => 1 end in
  let str := match str with
             | String "+" rest => rest
             | String "-" rest => rest
             | _ => str
             end in
  let '(R, str) := match str with
                   | String "0" (String "x" rest) => (16, rest)
                   | String "0" (String "X" rest) => (16, rest)
                   | _ => (10, str)
                   end in
  match parseDigits R str None with
  | None => JsNumber.NaN
  | Some mathInt => JsNumber.ofInteger (sign * mathInt)
  end.

(** application/x-www-form-urlencoded serialisation of one code unit,
    as [URLSearchParams.prototype.toString] does after UTF-8
    encoding. *)
Definition hexDigit (n : Z) : ascii :=
  ascii_of_nat (Z.to_nat (if n <? 10 then 48 + n else 55 + n)).

Definition percent (b : Z) : string :=
  String "%" (String (hexDigit (b / 16)) (String (hexDigit (b mod 16)) EmptyString)).

Definition urlencodeUnit (c : ascii) : string :=
  let n := code c in
  if ((48 <=? n) && (n <=? 57)) || ((65 <=? n) && (n <=? 90))
     || ((97 <=? n) && (n <=? 122))
     || (n =? 42) || (n =? 45) || (n =? 46) || (n =? 95)
  then String c EmptyString
  else if n =? 32 then "+"%string
  else if n <? 128 then percent n
  else (percent (192 + n / 64) ++ percent (128 + n mod 64))%string.

Fixpoint urlencode (s : string) : string :=
  match s with
  | EmptyString => EmptyString
  | String c rest => (urlencodeUnit c ++ urlencode rest)%string
  end.

(** [new URLSearchParams()] after a sequence of [append]s, then
    [toString()]. *)
Fixpoint searchParamsToString (params : list (string * string)) : string :=
  match params with
  | [] => EmptyString
  | [(k, v)] => (urlencode k ++ "=" ++ urlencode v)%string
  | (k, v) :: rest =>
    (urlencode k ++ "=" ++ urlencode v ++ "&" ++ searchParamsToString rest)%string
  end.

(** A string is falsy exactly when it is empty. *)
Definition truthy (s : string) : bool :=
  match s with EmptyString => false | _ => true end.

End JsString.

(** [Array.prototype.sort(comparefn)]: the specification asks for a
    stable sort, so for a consistent comparator the result is the
    stable insertion sort below, whatever algorithm the engine runs. *)
Module JsArray.
Section Sort.
Context {A : Type}.
Variable comparefn : A -> A -> JsNumber.Number.

(** SortCompare for defined elements: a NaN from [comparefn] counts
    as zero. *)
Definition SortCompare (x y : A) : JsNumber.Number :=
  match comparefn x y with
  | JsNumber.NaN => JsNumber.Finite 0
  | v => v
  end.

Fixpoint insert (x : A) (l : list A) : list A :=
  match l with
  | [] => [x]
  | y :: l' =>
    if JsNumber.isPositive (SortCompare x y) then y :: insert x l' else x :: l
  end.

Fixpoint sort (l : list A) : list A :=
  match l with
  | [] => []
  | x :: l' => insert x (sort l')
  end.
End Sort.
End JsArray.

(* ===================================================================== *)
(** * The REST collaborator and asynchronous handlers *)
(* ===================================================================== *)

Module Net.

Inductive Method := GET | POST | PUT | DELETE.

(** The arguments of one [fetch(url, init)] call.  [body] holds the
    members of the object handed to [JSON.stringify], in order. *)
Record Request := {
  url : string;
  method : Method;
  headers : list (string * string);
  body : option (list (string * string))
}.

(** [fetch(url)] without an [init] argument. *)
Definition get (u : string) : Request :=
  {| url := u; method := GET; headers := []; body := None |}.

(** What an [await fetch(...)] resolves to, seen from the handler:
    either the promise rejects (transport failure), or a response
    arrives with its [ok] flag (status 2xx) and a body on which
    [response.json()] yields a value of type [J] or rejects
    ([None]). *)
Inductive FetchOutcome (J : Type) :=
| Rejected
| Response (ok : bool) (json : option J).
Arguments Rejected {J}.
Arguments Response {J} ok json.

End Net.

Module Async.
Import Net.

Section Resumptions.
(** [St] is the component state, [J] the type of parsed bodies. *)
Variables St J : Type.

(** A handler that has run up to its next suspension point.  [Await
    s r k]: the handler has left the component in state [s] and
    waits for the outcome of request [r]; [k] resumes it with the
    outcome and with the state the component is in by then. *)
Inductive Proc (A : Type) : Type :=
| Done (a : A) (s : St)
| Await (s : St) (r : Request) (k : FetchOutcome J -> St -> Proc A).
Arguments Done {A} a s.
Arguments Await {A} s r k.

Definition M (A : Type) : Type := St -> Proc A.

Fixpoint bindP {A B} (p : Proc A) (f : A -> St -> Proc B) : Proc B :=
  match p with
  | Done a s => f a s
  | Await s r k => Await s r (fun o s' => bindP (k o s') f)
  end.

#[export] Instance Monad_M : Monad M := {
  ret := fun _ a s => Done a s;
  bind := fun _ _ m f s => bindP (m s) f
}.

Definition get : M St := fun s => Done s s.
Definition modify (f : St -> St) : M unit := fun s => Done tt (f s).
Definition fetch (r : Request) : M (FetchOutcome J) :=
  fun s => Await s r (fun o s' => Done o s').

(** Run a handler to completion with nothing else scheduled in
    between: [net] scripts the outcome of each request in turn.
    The result is the final state and the requests issued;
    [None] when the script ends while a request is in flight. *)
Fixpoint run {A} (p : Proc A) (net : list (FetchOutcome J))
  : option (St * list Request) :=
  match p with
  | Done _ s => Some (s, [])
  | Await s r k =>
    match net with
    | [] => None
    | o :: net' =>
      match run (k o s) net' with
      | Some (s', rs) => Some (s', r :: rs)
      | None => None
      end
    end
  end.

(** The request a handler is suspended on, if it is suspended. *)
Definition inFlight {A} (p : Proc A) : option Request :=
  match p with
  | Done _ _ => None
  | Await _ r _ => Some r
  end.

(** The state the component is left in when the handler returns
    control to the event loop for the first time. *)
Definition yielded {A} (p : Proc A) : St :=
  match p with
  | Done _ s => s
  | Await s _ _ => s
  end.

End Resumptions.

Arguments Done {St J A} a s.
Arguments Await {St J A} s r k.
Arguments get {St J}.
Arguments modify {St J} f.
Arguments fetch {St J} r.
Arguments run {St J A} p net.
Arguments inFlight {St J A} p.
Arguments yielded {St J A} p.
Arguments bindP {St J A B} p f.

(** A synchronous handler either returns or throws; in both cases the
    assignments it has made so far stay. *)
Inductive Completion (St : Type) :=
| Normal (s : St)
| Thrown (s : St).
Arguments Normal {St} s.
Arguments Thrown {St} s.

Definition stateOf {St} (c : Completion St) : St :=
  match c with Normal s => s | Thrown s => s end.

(** A synchronous handler seen as a handler that never suspends. *)
Definition sync {St J} (f : St -> Completion St) : M St J unit :=
  fun s => Done tt (stateOf (f s)).

(** The outcomes on which a handler takes its failure path: the
    promise rejected, or the response is not 2xx. *)
Definition failed {J} (o : FetchOutcome J) : bool :=
  match o with
  | Response true _ => false
  | _ => true
  end.

End Async.

(** Enumerated columns of a task, shared by both components. *)
Inductive TaskType := cleaning | maintenance | inspection | turndown.
Inductive Priority := low | medium | high | urgent.
Inductive Status := pending | in_progress | completed | cancelled.

Definition taskType_str (t : TaskType) : string :=
  match t with
  | cleaning => "cleaning" | maintenance => "maintenance"
  | inspection => "inspection" | turndown => "turndown"
  end.

Definition priority_str (p : Priority) : string :=
  match p with
  | low => "low" | medium => "medium" | high => "high" | urgent => "urgent"
  end.

Definition status_str (s : Status) : string :=
  match s with
  | pending => "pending" | in_progress => "in_progress"
  | completed => "completed" | cancelled => "cancelled"
  end.

Definition API_URL : string := "http://localhost:3000".

(** [a || b] on strings where [a] may be undefined. *)
Definition orElse (a : option string) (b : string) : string :=
  match a with
  | Some x => if JsString.truthy x then x else b
  | None => b
  end.

(* ===================================================================== *)
(** * CalendarView.vue *)
(* ===================================================================== *)

Module CalendarView.
Import Net Async.
Local Open Scope string_scope.
Local Open Scope monad_scope.

Record HousekeepingTask := {
  id : string;
  roomId : string;
  roomNumber : option string;
  assignedUserId : string;
  assignedUserName : option string;
  taskDate : string;
  taskType : TaskType;
  priority : Priority;
  status : Status;
  notes : option string;
  startedAt : option string;
  completedAt : option string
}.

Record Room := {
  room_id : string;
  room_roomNumber : string;
  room_roomTypeName : option string;
  room_floor : option Z;
  room_status : string
}.

Record PendingMove := {
  task : HousekeepingTask;
  fromDate : string;
  toDate : string
}.

(** The refs of the component.  An array ref is [None] once
    [undefined] has been assigned to it (a response body without the
    member). *)
(** The value of [transitionDirection] when it is not [null]. *)
Inductive Direction := left | right.

Record State := {
  rooms : option (list Room);
  tasks : option (list HousekeepingTask);
  loading : bool;
  error : string;
  startDate : JsDate.Date;
  daysToShow : Z;
  containerWidth : Z;
  draggedTask : option HousekeepingTask;
  draggedFromDate : option string;
  pendingMove : option PendingMove;
  statusFilter : string;
  transitionDirection : option Direction
}.

Definition set_rooms v s :=
  {| rooms := v; tasks := tasks s; loading := loading s; error := error s;
     startDate := startDate s; daysToShow := daysToShow s;
     containerWidth := containerWidth s; draggedTask := draggedTask s;
     draggedFromDate := draggedFromDate s; pendingMove := pendingMove s;
     statusFilter := statusFilter s;
     transitionDirection := transitionDirection s |}.
Definition set_tasks v s :=
  {| rooms := rooms s; tasks := v; loading := loading s; error := error s;
     startDate := startDate s; daysToShow := daysToShow s;
     containerWidth := containerWidth s; draggedTask := draggedTask s;
     draggedFromDate := draggedFromDate s; pendingMove := pendingMove s;
     statusFilter := statusFilter s;
     transitionDirection := transitionDirection s |}.
Definition set_loading v s :=
  {| rooms := rooms s; tasks := tasks s; loading := v; error := error s;
     startDate := startDate s; daysToShow := daysToShow s;
     containerWidth := containerWidth s; draggedTask := draggedTask s;
     draggedFromDate := draggedFromDate s; pendingMove := pendingMove s;
     statusFilter := statusFilter s;
     transitionDirection := transitionDirection s |}.
Definition set_error v s :=
  {| rooms := rooms s; tasks := tasks s; loading := loading s; error := v;
     startDate := startDate s; daysToShow := daysToShow s;
     containerWidth := containerWidth s; draggedTask := draggedTask s;
     draggedFromDate := draggedFromDate s; pendingMove := pendingMove s;
     statusFilter := statusFilter s;
     transitionDirection := transitionDirection s |}.
Definition set_startDate v s :=
  {| rooms := rooms s; tasks := tasks s; loading := loading s; error := error s;
     startDate := v; daysToShow := daysToShow s;
     containerWidth := containerWidth s; draggedTask := draggedTask s;
     draggedFromDate := draggedFromDate s; pendingMove := pendingMove s;
     statusFilter := statusFilter s;
     transitionDirection := transitionDirection s |}.
Definition set_daysToShow v s :=
  {| rooms := rooms s; tasks := tasks s; loading := loading s; error := error s;
     startDate := startDate s; daysToShow := v;
     containerWidth := containerWidth s; draggedTask := draggedTask s;
     draggedFromDate := draggedFromDate s; pendingMove := pendingMove s;
     statusFilter := statusFilter s;
     transitionDirection := transitionDirection s |}.
Definition set_containerWidth v s :=
  {| rooms := rooms s; tasks := tasks s; loading := loading s; error := error s;
     startDate := startDate s; daysToShow := daysToShow s;
     containerWidth := v; draggedTask := draggedTask s;
     draggedFromDate := draggedFromDate s; pendingMove := pendingMove s;
     statusFilter := statusFilter s;
     transitionDirection := transitionDirection s |}.
Definition set_draggedTask v s :=
  {| rooms := rooms s; tasks := tasks s; loading := loading s; error := error s;
     startDate := startDate s; daysToShow := daysToShow s;
     containerWidth := containerWidth s; draggedTask := v;
     draggedFromDate := draggedFromDate s; pendingMove := pendingMove s;
     statusFilter := statusFilter s;
     transitionDirection := transitionDirection s |}.
Definition set_draggedFromDate v s :=
  {| rooms := rooms s; tasks := tasks s; loading := loading s; error := error s;
     startDate := startDate s; daysToShow := daysToShow s;
     containerWidth := containerWidth s; draggedTask := draggedTask s;
     draggedFromDate := v; pendingMove := pendingMove s;
     statusFilter := statusFilter s;
     transitionDirection := transitionDirection s |}.
Definition set_pendingMove v s :=
  {| rooms := rooms s; tasks := tasks s; loading := loading s; error := error s;
     startDate := startDate s; daysToShow := daysToShow s;
     containerWidth := containerWidth s; draggedTask := draggedTask s;
     draggedFromDate := draggedFromDate s; pendingMove := v;
     statusFilter := statusFilter s;
     transitionDirection := transitionDirection s |}.

Definition set_transitionDirection v s :=
  {| rooms := rooms s; tasks := tasks s; loading := loading s; error := error s;
     startDate := startDate s; daysToShow := daysToShow s;
     containerWidth := containerWidth s; draggedTask := draggedTask s;
     draggedFromDate := draggedFromDate s; pendingMove := pendingMove s;
     statusFilter := statusFilter s;
     transitionDirection := v |}.

(** A parsed response body, as far as the component looks into it:
    JSON [null], or a value whose members [error], [tasks] and [rooms]
    may each be missing. *)
Record JsonObject := {
  j_error : option string;
  j_tasks : option (list HousekeepingTask);
  j_rooms : option (list Room)
}.
Inductive Json := JNull | JObject (data : JsonObject).

Definition Handler : Type := Async.M State Json unit.

(** Fixed column widths (must match CSS). *)
Definition ROOM_COLUMN_WIDTH : Z := 120.
Definition DATE_COLUMN_WIDTH : Z := 100.

(** [date.toISOString().split('T')[0]]; [None] when [toISOString]
    throws. *)
Definition formatDateISO (date : JsDate.Date) : option string :=
  match JsDate.toISOString date with
  | Some iso => Some (JsDate.split_first "T" iso)
  | None => None
  end.

Section Dates.
Variable LocalTZA : JsDate.TimeZone.

(** The body of the [for] loop of [dates], run [n] more times from
    index [i]. *)
Fixpoint dates_loop (start : JsDate.Date) (n : nat) (i : Z)
         (dateArray : list JsDate.Date) : list JsDate.Date :=
  match n with
  | O => dateArray
  | S n' =>
    let date := JsDate.newDate start in
    let date :=
      JsDate.setDate LocalTZA date
        (option_map (fun d => d + i) (JsDate.getDate LocalTZA date)) in
    dates_loop start n' (i + 1) (dateArray ++ [date])
  end.

(** [for (let i = 0; i < daysToShow; i++)] runs [daysToShow] times
    (not at all when it is not positive). *)
Definition dates (s : State) : list JsDate.Date :=
  dates_loop (startDate s) (Z.to_nat (daysToShow s)) 0 [].

(** The refs as the script block initialises them; [now] is the
    time value of [new Date()] at that moment. *)
Definition initialState (now : Z) : State :=
  let yesterday := Some now in
  let yesterday :=
    JsDate.setDate LocalTZA yesterday
      (option_map (fun d => d - 1) (JsDate.getDate LocalTZA yesterday)) in
  {| rooms := Some []; tasks := Some []; loading := false; error := "";
     startDate := yesterday; daysToShow := 7; containerWidth := 0;
     draggedTask := None; draggedFromDate := None; pendingMove := None;
     statusFilter := "all"; transitionDirection := None |}.

(** One turn of the loop of [dates] taken on its own: a copy of
    [start] moved [i] days. *)
Definition column (start : JsDate.Date) (i : Z) : JsDate.Date :=
  let date := JsDate.newDate start in
  JsDate.setDate LocalTZA date
    (option_map (fun d => d + i) (JsDate.getDate LocalTZA date)).

(** The calendar day, in the host's time zone, a time value falls on. *)
Definition localDay (t : Z) : Z := JsDate.Day (JsDate.LocalTime LocalTZA t).

(** The local time [setDate] aims column [i] at: [i] days after the
    local day of [t0], at the local time of day of [t0]. *)
Definition columnLocal (t0 i : Z) : Z :=
  JsDate.MakeDate (localDay t0 + i)
                  (JsDate.TimeWithinDay (JsDate.LocalTime LocalTZA t0)).

(** [navigateDays]: the state when the call returns, and the timers it
    has set, each a delay in milliseconds and the callback to run. *)
Definition navigateDays (offset : Z) (s : State)
  : State * list (Z * (State -> State)) :=
  let s :=
    set_transitionDirection (Some (if offset >? 0 then right else left)) s in
  let newDate := JsDate.newDate (startDate s) in
  let newDate :=
    JsDate.setDate LocalTZA newDate
      (option_map (fun d => d + offset) (JsDate.getDate LocalTZA newDate)) in
  let s := set_startDate newDate s in
  (s, [(400, set_transitionDirection None)]).
End Dates.

(** [parseInt(room.roomNumber) || 0], the number a room is sorted
    by. *)
Definition roomKey (r : Room) : JsNumber.Number :=
  JsNumber.or (JsString.parseInt (room_roomNumber r)) (JsNumber.Finite 0).

(** The compare function handed to [sort]. *)
Definition byRoomNumber (a b : Room) : JsNumber.Number :=
  let numA := roomKey a in
  let numB := roomKey b in
  JsNumber.sub numA numB.

(** A room that has nothing but its label (test fixture). *)
Definition roomLabelled (label : string) : Room :=
  {| room_id := label; room_roomNumber := label; room_roomTypeName := None;
     room_floor := None; room_status := "available" |}.

(** A pending cleaning task that has nothing but its id, room and date
    (test fixture). *)
Definition taskOf (id' roomId' taskDate' : string) : HousekeepingTask :=
  {| id := id'; roomId := roomId'; roomNumber := None; assignedUserId := "u1";
     assignedUserName := None; taskDate := taskDate'; taskType := cleaning;
     priority := medium; status := pending; notes := None; startedAt := None;
     completedAt := None |}.

(** [filteredRooms]; [None] when spreading [rooms.value] throws. *)
Definition filteredRooms (s : State) : option (list Room) :=
  match rooms s with
  | None => None
  | Some rs =>
    let filtered := rs in
    Some (JsArray.sort byRoomNumber filtered)
  end.

Definition fetchRooms : Handler :=
  out <- fetch (Net.get (API_URL ++ "/rooms")) ;;
  match out with
  | Response _ (Some (JObject data)) => modify (set_rooms (j_rooms data))
  | _ => modify (set_error "Failed to fetch rooms")
  end.

Definition fetchTasks : Handler :=
  out <- fetch (Net.get (API_URL ++ "/housekeeping-tasks")) ;;
  match out with
  | Response _ (Some (JObject data)) => modify (set_tasks (j_tasks data))
  | _ => modify (set_error "Failed to fetch tasks")
  end.

(** [None] when the function throws ([toISOString] on an invalid
    date, or [filter] on an undefined task list). *)
Definition getTasksForRoomAndDate (s : State) (roomId' : string)
           (date : JsDate.Date) : option (list HousekeepingTask) :=
  match formatDateISO date with
  | None => None
  | Some dateStr =>
    match tasks s with
    | None => None
    | Some ts =>
      let roomTasks :=
        filter (fun t => (roomId t =? roomId') && (taskDate t =? dateStr)) ts in
      if negb (statusFilter s =? "all")
      then Some (filter (fun t => status_str (status t) =? statusFilter s) roomTasks)
      else Some roomTasks
    end
  end.

(** The cell test in the words of the grid builder: the task is in the
    room, on the date, and passes the status filter when one is set. *)
Definition inCell (s : State) (roomId' dateStr : string) (t : HousekeepingTask)
  : bool :=
  (roomId t =? roomId') && (taskDate t =? dateStr)
  && ((statusFilter s =? "all") || (status_str (status t) =? statusFilter s)).

(** [Subsequence l1 l2]: [l1] is [l2] with some elements left out, the
    others in their order. *)
Inductive Subsequence {A : Type} : list A -> list A -> Prop :=
| Subsequence_nil : Subsequence [] []
| Subsequence_skip x l1 l2 : Subsequence l1 l2 -> Subsequence l1 (x :: l2)
| Subsequence_keep x l1 l2 : Subsequence l1 l2 -> Subsequence (x :: l1) (x :: l2).

Definition calculateDaysToShow (width : Z) : Z :=
  let availableWidth := (width - ROOM_COLUMN_WIDTH)%Z in
  let maxDays := (availableWidth / DATE_COLUMN_WIDTH)%Z in
  Z.max 3 (Z.min 30 maxDays).

(** [container] is the [clientWidth] of the calendar container, if
    the element exists. *)
Definition updateContainerWidth (container : option Z) (s : State) : State :=
  match container with
  | Some width =>
    set_daysToShow (calculateDaysToShow width) (set_containerWidth width s)
  | None => s
  end.

(** ** Drag and drop handlers *)

Definition handleDragStart (task' : HousekeepingTask) (date : JsDate.Date)
           (s : State) : Completion State :=
  let s := set_draggedTask (Some task') s in
  match formatDateISO date with
  | None => Thrown s
  | Some d => Normal (set_draggedFromDate (Some d) s)
  end.

Definition handleDrop (date : JsDate.Date) (s : State) : Completion State :=
  match draggedTask s, draggedFromDate s with
  | Some dragged, Some from =>
    if negb (JsString.truthy from) then Normal s
    else
      match formatDateISO date with
      | None => Thrown s
      | Some newDate =>
        if newDate =? from then
          Normal (set_draggedFromDate None (set_draggedTask None s))
        else
          let s := set_pendingMove
                     (Some {| task := dragged; fromDate := from; toDate := newDate |}) s in
          Normal (set_draggedFromDate None (set_draggedTask None s))
      end
  | _, _ => Normal s
  end.

Definition confirmMove : Handler :=
  s <- get ;;
  match pendingMove s with
  | None => ret tt
  | Some pm =>
    modify (set_loading true) ;;
    modify (set_error "") ;;
    out <- fetch {| url := API_URL ++ "/housekeeping-tasks/" ++ id (task pm);
                    method := PUT;
                    headers := [("Content-Type", "application/json")];
                    body := Some [("taskDate", toDate pm)] |} ;;
    match out with
    | Response true _ =>
      modify (set_pendingMove None) ;;
      fetchTasks
    | Response false (Some (JObject data)) =>
      modify (set_error (orElse (j_error data) "Failed to move task")) ;;
      modify (set_pendingMove None)
    | _ =>
      (* [fetch] or [response.json()] rejected, or [data] is null *)
      modify (set_error "Failed to move task") ;;
      modify (set_pendingMove None)
    end ;;
    modify (set_loading false)
  end.

Definition cancelMove (s : State) : State := set_pendingMove None s.

(** The update request a confirmation is to send for [pm]: a PUT on
    the task's resource whose body has the one member [taskDate]. *)
Definition putRequest (pm : PendingMove) : Request :=
  {| url := API_URL ++ "/housekeeping-tasks/" ++ id (task pm);
     method := PUT;
     headers := [("Content-Type", "application/json")];
     body := Some [("taskDate", toDate pm)] |}.

(** The request that re-fetches the full task list. *)
Definition tasksRequest : Request := Net.get (API_URL ++ "/housekeeping-tasks").

(** A drag is in flight: a task and a non-empty origin date are
    recorded. *)
Definition Dragging (s : State) (dragged : HousekeepingTask) (from : string)
  : Prop :=
  draggedTask s = Some dragged /\ draggedFromDate s = Some from /\
  JsString.truthy from = true.

End CalendarView.

(* ===================================================================== *)
(** * HousekeepingTaskManager.vue: the add-task form *)
(* ===================================================================== *)

Module HousekeepingTaskManager.
Import Net Async.
Local Open Scope string_scope.
Local Open Scope monad_scope.

Record HousekeepingTask := {
  id : string;
  roomId : string;
  roomNumber : option string;
  assignedUserId : string;
  assignedUserName : option string;
  taskDate : string;
  taskType : TaskType;
  priority : Priority;
  status : Status;
  notes : option string;
  startedAt : option string;
  completedAt : option string;
  createdAt : string;
  updatedAt : option string
}.

Record TaskForm := {
  f_roomId : string;
  f_assignedUserId : string;
  f_taskDate : string;
  f_taskType : TaskType;
  f_priority : Priority;
  f_status : Status;
  f_notes : string
}.

(** The refs read or written by [addTask] and the functions it calls
    (the room and user directories are left out). *)
Record State := {
  tasks : option (list HousekeepingTask);
  loading : bool;
  error : string;
  editingTask : option HousekeepingTask;
  dateFilter : string;
  statusFilter : string;
  userFilter : string;
  formData : TaskForm
}.

Definition set_tasks v s :=
  {| tasks := v; loading := loading s; error := error s;
     editingTask := editingTask s; dateFilter := dateFilter s;
     statusFilter := statusFilter s; userFilter := userFilter s;
     formData := formData s |}.
Definition set_loading v s :=
  {| tasks := tasks s; loading := v; error := error s;
     editingTask := editingTask s; dateFilter := dateFilter s;
     statusFilter := statusFilter s; userFilter := userFilter s;
     formData := formData s |}.
Definition set_error v s :=
  {| tasks := tasks s; loading := loading s; error := v;
     editingTask := editingTask s; dateFilter := dateFilter s;
     statusFilter := statusFilter s; userFilter := userFilter s;
     formData := formData s |}.
Definition set_editingTask v s :=
  {| tasks := tasks s; loading := loading s; error := error s;
     editingTask := v; dateFilter := dateFilter s;
     statusFilter := statusFilter s; userFilter := userFilter s;
     formData := formData s |}.
Definition set_formData v s :=
  {| tasks := tasks s; loading := loading s; error := error s;
     editingTask := editingTask s; dateFilter := dateFilter s;
     statusFilter := statusFilter s; userFilter := userFilter s;
     formData := v |}.

Record JsonObject := {
  j_error : option string;
  j_tasks : option (list HousekeepingTask)
}.
Inductive Json := JNull | JObject (data : JsonObject).

Definition Handler : Type := Async.M State Json unit.

(** The members of [formData.value] as [JSON.stringify] lists them. *)
Definition formBody (f : TaskForm) : list (string * string) :=
  [("roomId", f_roomId f); ("assignedUserId", f_assignedUserId f);
   ("taskDate", f_taskDate f); ("taskType", taskType_str (f_taskType f));
   ("priority", priority_str (f_priority f)); ("status", status_str (f_status f));
   ("notes", f_notes f)].

Definition fetchTasks : Handler :=
  s <- get ;;
  let params : list (string * string) := [] in
  let params := if JsString.truthy (dateFilter s)
                then (params ++ [("date", dateFilter s)])%list else params in
  let params := if negb (statusFilter s =? "all")
                then (params ++ [("status", statusFilter s)])%list else params in
  let params := if negb (userFilter s =? "all")
                then (params ++ [("userId", userFilter s)])%list else params in
  let queryString := JsString.searchParamsToString params in
  let url := if JsString.truthy queryString
             then API_URL ++ "/housekeeping-tasks?" ++ queryString
             else API_URL ++ "/housekeeping-tasks" in
  out <- fetch (Net.get url) ;;
  match out with
  | Response _ (Some (JObject data)) => modify (set_tasks (j_tasks data))
  | _ => modify (set_error "Failed to fetch tasks")
  end.

Section Clock.
(** The time value of [new Date()] when the form is reset; it is
    always a valid date. *)
Variable now : Z.

Definition today : string :=
  match JsDate.toISOString (Some now) with
  | Some iso => JsDate.split_first "T" iso
  | None => ""
  end.

(** The refs as the script block initialises them. *)
Definition initialState : State :=
  {| tasks := Some []; loading := false; error := ""; editingTask := None;
     dateFilter := ""; statusFilter := "all"; userFilter := "all";
     formData := {| f_roomId := ""; f_assignedUserId := ""; f_taskDate := today;
                    f_taskType := cleaning; f_priority := medium;
                    f_status := pending; f_notes := "" |} |}.

Definition resetForm (s : State) : State :=
  let s := set_formData
             {| f_roomId := ""; f_assignedUserId := ""; f_taskDate := today;
                f_taskType := cleaning; f_priority := medium;
                f_status := pending; f_notes := "" |} s in
  let s := set_editingTask None s in
  set_error "" s.

Definition addTask : Handler :=
  s <- get ;;
  if negb (JsString.truthy (f_roomId (formData s)))
     || negb (JsString.truthy (f_assignedUserId (formData s)))
     || negb (JsString.truthy (f_taskDate (formData s)))
  then modify (set_error "Room, assigned user, and task date are required")
  else
    modify (set_loading true) ;;
    modify (set_error "") ;;
    out <- fetch {| url := API_URL ++ "/housekeeping-tasks";
                    method := POST;
                    headers := [("Content-Type", "application/json")];
                    body := Some (formBody (formData s)) |} ;;
    match out with
    | Response true (Some _) =>
      modify resetForm ;;
      fetchTasks
    | Response false (Some (JObject data)) =>
      modify (set_error (orElse (j_error data) "Failed to add task"))
    | _ =>
      (* [fetch] or [response.json()] rejected, or [data] is null *)
      modify (set_error "Failed to add task")
    end ;;
    modify (set_loading false).
End Clock.

End HousekeepingTaskManager.

(* ===================================================================== *)
(** * CalendarView.vue: today, the template's tests, mounting *)
(* ===================================================================== *)

(** [Promise.all([a(), b()])] for two handlers: both are called, one
    after the other, before any response can arrive; the responses
    then arrive in any order. *)
Module AsyncAll.
Import Net Async.

Section All.
Variables St J : Type.

(** A handler that has been called: finished already ([None]), or
    suspended on a request with its continuation. *)
Definition Started : Type :=
  option (Request * (FetchOutcome J -> St -> Proc St J unit)).

Definition suspended (p : Proc St J unit) : St * Started :=
  match p with
  | Done _ s => (s, None)
  | Await s r k => (s, Some (r, k))
  end.

Definition requestOf (a : Started) : list Request :=
  match a with
  | Some (r, _) => [r]
  | None => []
  end.

Inductive Which := First | Second.

(** Deliver the responses in the order of [arrivals], each to the
    handler it belongs to, which runs on from the state the component
    is in.  [Some s]: both handlers have finished, in state [s].
    [None]: the arrivals end before that, or one is addressed to a
    handler that waits for nothing. *)
Fixpoint settle (cur : St) (a b : Started)
         (arrivals : list (Which * FetchOutcome J)) : option St :=
  match a, b with
  | None, None => Some cur
  | _, _ =>
    match arrivals with
    | [] => None
    | (First, o) :: rest =>
      match a with
      | Some (_, k) =>
        let '(s', a') := suspended (k o cur) in settle s' a' b rest
      | None => None
      end
    | (Second, o) :: rest =>
      match b with
      | Some (_, k) =>
        let '(s', b') := suspended (k o cur) in settle s' a b' rest
      | None => None
      end
    end
  end.

End All.

Arguments suspended {St J} p.
Arguments requestOf {St J} a.
Arguments settle {St J} cur a b arrivals.

End AsyncAll.

Module CalendarPage.
Import Net Async AsyncAll CalendarView.
Local Open Scope string_scope.

(** MakeTime(hour, min, sec, ms). *)
Definition MakeTime (hour min sec ms : Z) : Z :=
  (hour * JsDate.msPerHour + min * JsDate.msPerMinute
   + sec * JsDate.msPerSecond + ms)%Z.

Section Host.
Variable LocalTZA : JsDate.TimeZone.

(** [d.setHours(0, 0, 0, 0)]; returns the mutated object. *)
Definition setHours0 (d : JsDate.Date) : JsDate.Date :=
  match d with
  | None => None
  | Some t0 =>
    let t := JsDate.LocalTime LocalTZA t0 in
    let date := JsDate.MakeDate (JsDate.Day t) (MakeTime 0 0 0 0) in
    JsDate.TimeClip (JsDate.UTC LocalTZA date)
  end.

(** A time value whose local midnight is a representable date. *)
Definition midnightInRange (t : Z) : Prop :=
  (- JsDate.maxTime + JsDate.msPerDay <= t <= JsDate.maxTime)%Z.

(** The calendar date of the host's time zone a time value falls on,
    written like an ISO date: the date the column header shows. *)
Definition localIso (t : Z) : string :=
  JsDate.isoDate (JsDate.LocalTime LocalTZA t).

(** [a.getTime() === b.getTime()]: NaN is equal to nothing. *)
Definition sameTime (a b : JsDate.Date) : bool :=
  match a, b with
  | Some x, Some y => (x =? y)%Z
  | _, _ => false
  end.

(** [isToday]; [now] is the time value of [new Date()]. *)
Definition isToday (now : Z) (date : JsDate.Date) : bool :=
  let today := Some now in
  let today := setHours0 today in
  let compareDate := JsDate.newDate date in
  let compareDate := setHours0 compareDate in
  sameTime compareDate today.

Definition goToToday (now : Z) (s : State) : State :=
  let yesterday := Some now in
  let yesterday :=
    JsDate.setDate LocalTZA yesterday
      (option_map (fun d => (d - 1)%Z) (JsDate.getDate LocalTZA yesterday)) in
  set_startDate yesterday s.

End Host.

Definition changeDaysToShow (days : Z) (s : State) : State :=
  set_daysToShow days s.

(** The test of the two [v-if]s that render the staged task and its
    confirm and cancel buttons in the cell of [room] and [date];
    [None] when [formatDateISO] throws. *)
Definition previewShown (s : State) (room : Room) (date : JsDate.Date)
  : option bool :=
  match pendingMove s with
  | None => Some false
  | Some pm =>
    match formatDateISO date with
    | None => None
    | Some d => Some ((toDate pm =? d) && (roomId (task pm) =? room_id room))
    end
  end.

(** The test of the [v-if] of the empty-cell placeholder. *)
Definition emptyCellShown (s : State) (room : Room) (date : JsDate.Date)
  : option bool :=
  match getTasksForRoomAndDate s (room_id room) date with
  | None => None
  | Some cell =>
    if (Z.of_nat (List.length cell) =? 0)%Z then
      match pendingMove s with
      | None => Some true
      | Some pm =>
        match formatDateISO date with
        | None => None
        | Some d =>
          Some (negb (fromDate pm =? d) || negb (roomId (task pm) =? room_id room))
        end
      end
    else Some false
  end.

(** The test of the [v-if] of the calendar container, inside which the
    rooms, the date columns and every task block are rendered:
    [!loading && filteredRooms.length > 0].  [None] when [filteredRooms]
    throws. *)
Definition gridRendered (s : State) : option bool :=
  if negb (loading s) then
    match filteredRooms s with
    | None => None
    | Some rs => Some (Z.of_nat (List.length rs) >? 0)%Z
    end
  else Some false.

(** The outcomes [fetchRooms] and [fetchTasks] take as a success: a
    response, of any status, whose body is a JSON value other than
    null. *)
Definition hasObject (o : FetchOutcome Json) : bool :=
  match o with
  | Response _ (Some (JObject _)) => true
  | _ => false
  end.

(** The [onMounted] hook.  [arrivals] is the order in which the two
    handlers are resumed with their responses; [container] is the
    [clientWidth] of the calendar
    container after the next tick, if the element is rendered.  The
    result is the state when the hook has finished and the requests it
    has sent; [None] when it never gets past [Promise.all]. *)
Definition onMounted (arrivals : list (Which * FetchOutcome Json))
           (container : option Z) (s : State) : option (State * list Request) :=
  let s := set_loading true s in
  let '(s, a) := suspended (fetchRooms s) in
  let '(s, b) := suspended (fetchTasks s) in
  match settle s a b arrivals with
  | Some s =>
    let s := set_loading false s in
    Some (updateContainerWidth container s, (requestOf a ++ requestOf b)%list)
  | None => None
  end.

End CalendarPage.

(* ===================================================================== *)
(** * HousekeepingTaskManager.vue: the other actions *)
(* ===================================================================== *)

Module TaskActions.
Import Net Async HousekeepingTaskManager.
Local Open Scope string_scope.
Local Open Scope monad_scope.

Definition startEdit (task : HousekeepingTask) (s : State) : State :=
  let s := set_editingTask (Some task) s in
  set_formData
    {| f_roomId := roomId task; f_assignedUserId := assignedUserId task;
       f_taskDate := taskDate task; f_taskType := taskType task;
       f_priority := priority task; f_status := status task;
       f_notes := orElse (notes task) "" |} s.

Section Clock.
Variable now : Z.

Definition updateTask : Handler :=
  s <- get ;;
  match editingTask s with
  | None => ret tt
  | Some editing =>
    modify (set_loading true) ;;
    modify (set_error "") ;;
    out <- fetch {| url := API_URL ++ "/housekeeping-tasks/" ++ id editing;
                    method := PUT;
                    headers := [("Content-Type", "application/json")];
                    body := Some (formBody (formData s)) |} ;;
    match out with
    | Response true (Some _) =>
      modify (resetForm now) ;;
      fetchTasks
    | Response false (Some (JObject data)) =>
      modify (set_error (orElse (j_error data) "Failed to update task"))
    | _ =>
      (* [fetch] or [response.json()] rejected, or [data] is null *)
      modify (set_error "Failed to update task")
    end ;;
    modify (set_loading false)
  end.

(** The form's submit handler: [editingTask ? updateTask() : addTask()]. *)
Definition submit : Handler :=
  s <- get ;;
  match editingTask s with
  | Some _ => updateTask
  | None => addTask now
  end.

End Clock.

(** [deleteTask]; [confirmed] is what the [confirm] dialog returns. *)
Definition deleteTask (confirmed : bool) (taskId : string) : Handler :=
  if negb confirmed then ret tt
  else
    modify (set_loading true) ;;
    modify (set_error "") ;;
    out <- fetch {| url := API_URL ++ "/housekeeping-tasks/" ++ taskId;
                    method := DELETE; headers := []; body := None |} ;;
    match out with
    | Response true _ => fetchTasks
    | Response false (Some (JObject data)) =>
      modify (set_error (orElse (j_error data) "Failed to delete task"))
    | _ => modify (set_error "Failed to delete task")
    end ;;
    modify (set_loading false).

(** The status-only update behind [startTask] and [completeTask]:
    the two functions differ in the status sent and in the fallback
    message. *)
Definition statusRequest (task : HousekeepingTask) (newStatus : Status)
  : Request :=
  {| url := API_URL ++ "/housekeeping-tasks/" ++ id task;
     method := PUT;
     headers := [("Content-Type", "application/json")];
     body := Some [("status", status_str newStatus)] |}.

Definition startTask (task : HousekeepingTask) : Handler :=
  modify (set_loading true) ;;
  modify (set_error "") ;;
  out <- fetch {| url := API_URL ++ "/housekeeping-tasks/" ++ id task;
                  method := PUT;
                  headers := [("Content-Type", "application/json")];
                  body := Some [("status", "in_progress")] |} ;;
  match out with
  | Response true _ => fetchTasks
  | Response false (Some (JObject data)) =>
    modify (set_error (orElse (j_error data) "Failed to start task"))
  | _ => modify (set_error "Failed to start task")
  end ;;
  modify (set_loading false).

Definition completeTask (task : HousekeepingTask) : Handler :=
  modify (set_loading true) ;;
  modify (set_error "") ;;
  out <- fetch {| url := API_URL ++ "/housekeeping-tasks/" ++ id task;
                  method := PUT;
                  headers := [("Content-Type", "application/json")];
                  body := Some [("status", "completed")] |} ;;
  match out with
  | Response true _ => fetchTasks
  | Response false (Some (JObject data)) =>
    modify (set_error (orElse (j_error data) "Failed to complete task"))
  | _ => modify (set_error "Failed to complete task")
  end ;;
  modify (set_loading false).

(** The tests of the [v-if]s of the Start and Complete buttons. *)
Definition startOffered (task : HousekeepingTask) : bool :=
  status_str (status task) =? "pending".
Definition completeOffered (task : HousekeepingTask) : bool :=
  status_str (status task) =? "in_progress".

(** The filters that are set, as query parameters, in the order
    [fetchTasks] appends them. *)
Definition filterParams (s : State) : list (string * string) :=
  ((if JsString.truthy (dateFilter s) then [("date", dateFilter s)] else [])
   ++ (if negb (statusFilter s =? "all") then [("status", statusFilter s)] else [])
   ++ (if negb (userFilter s =? "all") then [("userId", userFilter s)] else []))%list.

(** The request for the task list under the filters of [s]. *)
Definition listRequest (s : State) : Request :=
  Net.get (match filterParams s with
           | [] => API_URL ++ "/housekeeping-tasks"
           | params => API_URL ++ "/housekeeping-tasks?"
                       ++ JsString.searchParamsToString params
           end).

(** What the response to the list request does to the state. *)
Definition listed (o : FetchOutcome Json) (s : State) : State :=
  match o with
  | Response _ (Some (JObject data)) => set_tasks (j_tasks data) s
  | _ => set_error "Failed to fetch tasks" s
  end.

(** The request [addTask] sends for a form. *)
Definition postRequest (f : TaskForm) : Request :=
  {| url := API_URL ++ "/housekeeping-tasks"; method := POST;
     headers := [("Content-Type", "application/json")];
     body := Some (formBody f) |}.

(** The request [updateTask] sends for the task being edited. *)
Definition updateRequest (editing : HousekeepingTask) (f : TaskForm) : Request :=
  {| url := API_URL ++ "/housekeeping-tasks/" ++ id editing; method := PUT;
     headers := [("Content-Type", "application/json")];
     body := Some (formBody f) |}.

(** The request [deleteTask] sends. *)
Definition deleteRequest (taskId : string) : Request :=
  {| url := API_URL ++ "/housekeeping-tasks/" ++ taskId; method := DELETE;
     headers := []; body := None |}.

(** The form as [resetForm] leaves it. *)
Definition blankForm (now : Z) : TaskForm :=
  {| f_roomId := ""; f_assignedUserId := ""; f_taskDate := today now;
     f_taskType := cleaning; f_priority := medium;
     f_status := pending; f_notes := "" |}.

(** How often the code unit [c] occurs in [s]. *)
Fixpoint occurrences (c : ascii) (s : string) : nat :=
  match s with
  | EmptyString => O
  | String c' rest =>
    ((if Ascii.eqb c' c then 1 else 0) + occurrences c rest)%nat
  end.

(** The outcomes [addTask] and [updateTask] take as a success: a 2xx
    response whose body parses as JSON. *)
Definition accepted (o : FetchOutcome Json) : bool :=
  match o with
  | Response true (Some _) => true
  | _ => false
  end.

(** A task that has nothing but its id, room, assignee, date and
    status (test fixture). *)
Definition taskOf (id' roomId' user' taskDate' : string) (status' : Status)
  : HousekeepingTask :=
  {| id := id'; roomId := roomId'; roomNumber := None; assignedUserId := user';
     assignedUserName := None; taskDate := taskDate'; taskType := cleaning;
     priority := medium; status := status'; notes := None; startedAt := None;
     completedAt := None; createdAt := "2024-05-31T09:00:00.000Z";
     updatedAt := None |}.

End TaskActions.

Example parseInt_9A : JsString.parseInt "9A" = JsNumber.Finite 9.
Proof. reflexivity. Qed.
Example parseInt_A9 : JsString.parseInt "A9" = JsNumber.NaN.
Proof. reflexivity. Qed.
Example parseInt_hex : JsString.parseInt "  -0x1f" = JsNumber.Finite (-31).
Proof. reflexivity. Qed.
Example query_example :
  JsString.searchParamsToString
    [("date", "2024-06-01"); ("status", "in_progress"); ("userId", "a b")]%string
  = "date=2024-06-01&status=in_progress&userId=a+b"%string.
Proof. reflexivity. Qed.

Example iso_2024_06_01 :
  JsDate.toISOString (Some 1717200000000) = Some "2024-06-01T00:00:00.000Z"%string.
Proof. vm_compute. reflexivity. Qed.

Example iso_before_epoch :
  JsDate.toISOString (Some (-1)) = Some "1969-12-31T23:59:59.999Z"%string.
Proof. vm_compute. reflexivity. Qed.

(* ===================================================================== *)
(** * Facts about the ECMAScript routines *)
(* ===================================================================== *)

Module JsDateFacts.
Import JsDate.

Lemma DayFromYear_step y : DayFromYear (y + 1) = DayFromYear y + DaysInYear y.
Proof.
  unfold DayFromYear, DaysInYear.
  replace (y + 1 - 1970) with (y - 1969) by lia.
  replace (y + 1 - 1969) with (y - 1968) by lia.
  replace (y + 1 - 1901) with (y - 1900) by lia.
  replace (y + 1 - 1601) with (y - 1600) by lia.
  destruct (Z.eqb_spec (y mod 4) 0), (Z.eqb_spec (y mod 100) 0),
    (Z.eqb_spec (y mod 400) 0); cbn [negb];
    Z.div_mod_to_equations; lia.
Qed.

Lemma DaysInYear_cases y : DaysInYear y = 365 \/ DaysInYear y = 366.
Proof.
  unfold DaysInYear.
  destruct (y mod 4 =? 0), (y mod 100 =? 0), (y mod 400 =? 0); cbn; auto.
Qed.

Lemma DayFromYear_mono y y' : y <= y' -> DayFromYear y <= DayFromYear y'.
Proof. unfold DayFromYear. intros H. Z.div_mod_to_equations. lia. Qed.

Lemma DayFromYear_lt y y' : y < y' -> DayFromYear y < DayFromYear y'.
Proof.
  intros H. apply Z.lt_le_trans with (DayFromYear (y + 1)).
  - rewrite DayFromYear_step. destruct (DaysInYear_cases y); lia.
  - apply DayFromYear_mono. lia.
Qed.

Lemma YearFromTime_spec t :
  DayFromYear (YearFromTime t) <= Day t < DayFromYear (YearFromTime t + 1).
Proof.
  unfold YearFromTime. set (d := Day t). cbv zeta.
  set (y0 := 1970 + 400 * d / 146097).
  assert (H0 : DayFromYear (y0 - 1) <= d < DayFromYear (y0 + 2)).
  { unfold DayFromYear, y0. Z.div_mod_to_equations. lia. }
  destruct (Z.leb_spec (DayFromYear (y0 + 1)) d).
  - replace (y0 + 1 + 1) with (y0 + 2) by lia. lia.
  - destruct (Z.leb_spec (DayFromYear y0) d).
    + lia.
    + replace (y0 - 1 + 1) with y0 by lia. lia.
Qed.

(** [YearFromTime t] is the largest [y] with [TimeFromYear y <= t]. *)
Lemma YearFromTime_largest t y : TimeFromYear y <= t <-> y <= YearFromTime t.
Proof.
  pose proof (YearFromTime_spec t) as [Hlo Hhi].
  assert (Hd : TimeFromYear y <= t <-> DayFromYear y <= Day t).
  { unfold TimeFromYear, Day, msPerDay. Z.div_mod_to_equations. lia. }
  rewrite Hd. split; intros H.
  - destruct (Z.le_gt_cases y (YearFromTime t)) as [|Hgt]; [assumption|].
    assert (DayFromYear (YearFromTime t + 1) <= DayFromYear y)
      by (apply DayFromYear_mono; lia).
    lia.
  - apply Z.le_trans with (DayFromYear (YearFromTime t)); [|assumption].
    now apply DayFromYear_mono.
Qed.

Lemma DayWithinYear_range t :
  0 <= DayWithinYear t < DaysInYear (YearFromTime t).
Proof.
  unfold DayWithinYear. pose proof (YearFromTime_spec t) as H.
  rewrite DayFromYear_step in H. lia.
Qed.

Lemma MonthFromTime_range t : 0 <= MonthFromTime t <= 11.
Proof.
  unfold MonthFromTime. cbv zeta.
  repeat match goal with |- context [if ?b then _ else _] => destruct b end; lia.
Qed.

Lemma InLeapYear_cases t : InLeapYear t = 0 \/ InLeapYear t = 1.
Proof. unfold InLeapYear. destruct (_ =? _); auto. Qed.

(** Month and day of month recompose to the day within the year. *)
Lemma DaysBeforeMonth_DateFromTime t :
  DaysBeforeMonth (MonthFromTime t) (InLeapYear t) + DateFromTime t - 1
  = DayWithinYear t.
Proof.
  unfold DateFromTime, MonthFromTime. cbv zeta.
  repeat match goal with |- context [if ?b then _ else _] => destruct b end;
    cbn [DaysBeforeMonth]; lia.
Qed.

Lemma MakeDay_shift t i :
  MakeDay (YearFromTime t) (MonthFromTime t) (DateFromTime t + i) = Day t + i.
Proof.
  pose proof (MonthFromTime_range t) as Hm.
  unfold MakeDay. cbv zeta.
  rewrite (Z.div_small (MonthFromTime t) 12), (Z.mod_small (MonthFromTime t) 12) by lia.
  rewrite Z.add_0_r. fold (InLeapYear t).
  pose proof (DaysBeforeMonth_DateFromTime t). unfold DayWithinYear in *. lia.
Qed.

Lemma MakeDate_shift t i :
  MakeDate (Day t + i) (TimeWithinDay t) = t + i * msPerDay.
Proof.
  unfold MakeDate, Day, TimeWithinDay, msPerDay. Z.div_mod_to_equations. lia.
Qed.
Lemma YearFromTime_unique t y :
  DayFromYear y <= Day t < DayFromYear (y + 1) -> YearFromTime t = y.
Proof.
  intros [Hlo Hhi]. pose proof (YearFromTime_spec t) as [Hlo' Hhi'].
  destruct (Z.lt_trichotomy (YearFromTime t) y) as [Hlt | [Heq | Hgt]];
    [exfalso | assumption | exfalso].
  - assert (DayFromYear (YearFromTime t + 1) <= DayFromYear y)
      by (apply DayFromYear_mono; lia).
    lia.
  - assert (DayFromYear (y + 1) <= DayFromYear (YearFromTime t))
      by (apply DayFromYear_mono; lia).
    lia.
Qed.

(** The day number used by [MakeDay] is the one the standard asks
    for: the first day of month [mn] of year [ym]. *)
Lemma MakeDay_first_of_month ym mn :
  0 <= mn <= 11 ->
  let t := MakeDate (MakeDay ym mn 1) 0 in
  YearFromTime t = ym /\ MonthFromTime t = mn /\ DateFromTime t = 1.
Proof.
  intros Hmn t.
  set (leap := if DaysInYear ym =? 366 then 1 else 0).
  assert (Hday : Day t = DayFromYear ym + DaysBeforeMonth mn leap).
  { unfold t, MakeDate, MakeDay, Day. cbv zeta.
    rewrite (Z.div_small mn 12), (Z.mod_small mn 12) by lia.
    fold leap. rewrite !Z.add_0_r.
    rewrite Z.div_mul by (unfold msPerDay; lia). subst leap. lia. }
  assert (Hy : YearFromTime t = ym).
  { apply YearFromTime_unique. rewrite Hday, DayFromYear_step.
    assert (0 <= DaysBeforeMonth mn leap < DaysInYear ym); [|lia].
    unfold leap. destruct (DaysInYear_cases ym) as [E | E]; rewrite E; cbn;
      assert (Hc : mn = 0 \/ mn = 1 \/ mn = 2 \/ mn = 3 \/ mn = 4 \/ mn = 5 \/
                   mn = 6 \/ mn = 7 \/ mn = 8 \/ mn = 9 \/ mn = 10 \/ mn = 11)
        by lia;
      repeat (destruct Hc as [-> | Hc]; [cbn; lia|]); subst mn; cbn; lia. }
  assert (Hw : DayWithinYear t = DaysBeforeMonth mn leap)
    by (unfold DayWithinYear; rewrite Hy, Hday; lia).
  assert (Hl : InLeapYear t = leap) by (unfold InLeapYear; now rewrite Hy).
  assert (Hm : MonthFromTime t = mn).
  { unfold MonthFromTime. cbv zeta. rewrite Hw, Hl.
    assert (Hc : mn = 0 \/ mn = 1 \/ mn = 2 \/ mn = 3 \/ mn = 4 \/ mn = 5 \/
                 mn = 6 \/ mn = 7 \/ mn = 8 \/ mn = 9 \/ mn = 10 \/ mn = 11)
      by lia.
    unfold leap.
    repeat (destruct Hc as [-> | Hc]; [destruct (_ =? 366); reflexivity|]).
    subst mn. destruct (_ =? 366); reflexivity. }
  repeat split; [assumption | assumption |].
  pose proof (DaysBeforeMonth_DateFromTime t) as H.
  rewrite Hm, Hl, Hw in H. lia.
Qed.

End JsDateFacts.

(* ===================================================================== *)
(** * The date columns of the grid *)
(* ===================================================================== *)

Module DatesFacts.
Import JsDate JsDateFacts CalendarView.

Lemma TimeClip_in_range t : - maxTime <= t <= maxTime -> TimeClip t = Some t.
Proof.
  intros H. unfold TimeClip.
  destruct (Z.gtb_spec (Z.abs t) maxTime); [lia | reflexivity].
Qed.

Lemma TimeClip_out_of_range t : maxTime < Z.abs t -> TimeClip t = None.
Proof.
  intros H. unfold TimeClip.
  destruct (Z.gtb_spec (Z.abs t) maxTime); [reflexivity | lia].
Qed.

Section Zone.
Variable LocalTZA : TimeZone.

(** What [setDate] makes of a copy of a valid date: the instant the
    zone reads the local time [columnLocal] as, if representable. *)
Lemma column_instant t0 i :
  - maxTime <= t0 <= maxTime ->
  column LocalTZA (Some t0) i
  = TimeClip (UTC LocalTZA (columnLocal LocalTZA t0 i)).
Proof.
  intros H. unfold column, newDate. rewrite (TimeClip_in_range _ H).
  cbn [getDate option_map setDate]. cbv zeta.
  now rewrite MakeDay_shift.
Qed.

Lemma column_local_day t0 i :
  - maxTime <= t0 <= maxTime ->
  - maxTime <= UTC LocalTZA (columnLocal LocalTZA t0 i) <= maxTime ->
  keepsDay LocalTZA (columnLocal LocalTZA t0 i) ->
  column LocalTZA (Some t0) i = Some (UTC LocalTZA (columnLocal LocalTZA t0 i)) /\
  localDay LocalTZA (UTC LocalTZA (columnLocal LocalTZA t0 i))
  = localDay LocalTZA t0 + i.
Proof.
  intros H0 Hr Hk. rewrite column_instant, TimeClip_in_range by assumption.
  split; [reflexivity|].
  unfold localDay at 1. rewrite Hk. unfold columnLocal, MakeDate, Day, TimeWithinDay.
  assert (Hms : 0 < msPerDay) by (unfold msPerDay; lia).
  rewrite Z.add_comm, Z.div_add by lia.
  rewrite Z.div_small by (apply Z.mod_pos_bound; lia). lia.
Qed.

(** Where the offset never changes, the column is [i] days of 24
    hours after the start date. *)
Lemma columnLocal_constant off t0 i :
  (forall t u, LocalTZA t u = off) ->
  UTC LocalTZA (columnLocal LocalTZA t0 i) = t0 + i * msPerDay.
Proof.
  intros Hc. unfold columnLocal, localDay. rewrite MakeDate_shift.
  unfold UTC, LocalTime. rewrite !Hc. lia.
Qed.

Lemma dates_loop_spec start n i acc :
  dates_loop LocalTZA start n i acc
  = acc ++ map (fun k => column LocalTZA start (i + Z.of_nat k)) (seq 0 n).
Proof.
  revert i acc. induction n as [|n IH]; intros i acc.
  - cbn. now rewrite app_nil_r.
  - cbn [dates_loop]. rewrite IH. fold (column LocalTZA start i).
    rewrite <- app_assoc. cbn [app seq map]. rewrite Z.add_0_r.
    do 2 f_equal. rewrite <- seq_shift, map_map.
    apply map_ext. intros k. f_equal. lia.
Qed.

Lemma dates_length s :
  List.length (dates LocalTZA s) = Z.to_nat (daysToShow s).
Proof.
  unfold dates. rewrite dates_loop_spec. cbn [app].
  now rewrite length_map, length_seq.
Qed.

Lemma dates_nth s i :
  0 <= i < daysToShow s ->
  nth_error (dates LocalTZA s) (Z.to_nat i)
  = Some (column LocalTZA (startDate s) i).
Proof.
  intros Hi. unfold dates. rewrite dates_loop_spec. cbn [app].
  rewrite nth_error_map, nth_error_seq.
  destruct (Nat.ltb_spec (Z.to_nat i) (Z.to_nat (daysToShow s))); [|lia].
  cbn. do 2 f_equal. lia.
Qed.

(** The day count the component holds is always one the grid accepts:
    7 at start, and the clamped value after every resize. *)
Lemma daysToShow_in_range now container s :
  3 <= daysToShow (initialState LocalTZA now) <= 30 /\
  (3 <= daysToShow s <= 30 ->
   3 <= daysToShow (updateContainerWidth container s) <= 30).
Proof.
  split; [cbn; lia|]. intros H. destruct container as [w|]; [|exact H].
  cbn. unfold calculateDaysToShow. lia.
Qed.


End Zone.

Section FixedOffset.
Variable offset : Z.
Local Abbreviation LocalTZA := (fixedOffset offset).

(** A zone without clock changes reads every local time as an instant
    of the same local day. *)
Lemma keepsDay_fixed x : keepsDay LocalTZA x.
Proof.
  unfold keepsDay, LocalTime, UTC, fixedOffset. f_equal. lia.
Qed.

Lemma columnLocal_fixed t0 i :
  UTC LocalTZA (columnLocal LocalTZA t0 i) = t0 + i * msPerDay.
Proof. now apply columnLocal_constant with (off := offset). Qed.

Lemma column_shift t0 i :
  - maxTime <= t0 <= maxTime ->
  column LocalTZA (Some t0) i = TimeClip (t0 + i * msPerDay).
Proof.
  intros H. now rewrite column_instant, columnLocal_fixed.
Qed.

(** [navigateDays] moves the start date by [offset] calendar days. *)
Lemma navigateDays_shift a s t0 :
  startDate s = Some t0 ->
  - maxTime <= t0 <= maxTime ->
  - maxTime <= t0 + a * msPerDay <= maxTime ->
  startDate (fst (navigateDays LocalTZA a s)) = Some (t0 + a * msPerDay).
Proof.
  intros Hs H0 H1. unfold navigateDays.
  cbn [fst startDate set_startDate set_transitionDirection].
  fold (column LocalTZA (startDate s) a).
  rewrite Hs, column_shift by assumption. now apply TimeClip_in_range.
Qed.

End FixedOffset.

(** New York's clock changes of 2024 move no local time to another
    day: the hour skipped in March is read as the hour after it. *)
Lemma keepsDay_newYork2024 x : keepsDay newYork2024 x.
Proof.
  unfold keepsDay, LocalTime, UTC, newYork2024, Day, msPerDay.
  destruct (Z.ltb_spec x 1710039600000);
    [|destruct (Z.ltb_spec x 1730599200000)];
    repeat match goal with
           | |- context [?a <? ?b] => destruct (Z.ltb_spec a b)
           end;
    Z.div_mod_to_equations; lia.
Qed.



End DatesFacts.

(* ===================================================================== *)
(** * The responsive layout calculator *)
(* ===================================================================== *)

Module LayoutFacts.
Import CalendarView.

Lemma calculateDaysToShow_mono w w' :
  w <= w' -> calculateDaysToShow w <= calculateDaysToShow w'.
Proof.
  intros H. unfold calculateDaysToShow. cbv zeta.
  assert ((w - ROOM_COLUMN_WIDTH) / DATE_COLUMN_WIDTH
          <= (w' - ROOM_COLUMN_WIDTH) / DATE_COLUMN_WIDTH).
  { apply Z.div_le_mono; unfold DATE_COLUMN_WIDTH; lia. }
  lia.
Qed.

(** C5.  For every width [w], with [q] the floor of
    [(w - ROOM_COLUMN_WIDTH) / DATE_COLUMN_WIDTH], the calculator
    returns [q] clamped to the interval from 3 to 30; the result is
    non-decreasing in [w], and a width that leaves no room for date
    columns (at most the room column, in particular at most 0) gives
    exactly 3. *)
Theorem calculateDaysToShow_clamped (w : Z) :
  exists q,
    (DATE_COLUMN_WIDTH * q <= w - ROOM_COLUMN_WIDTH
       < DATE_COLUMN_WIDTH * (q + 1)) /\
    calculateDaysToShow w = (if q <? 3 then 3 else if 30 <? q then 30 else q) /\
    3 <= calculateDaysToShow w <= 30 /\
    (w <= ROOM_COLUMN_WIDTH -> calculateDaysToShow w = 3) /\
    (w <= 0 -> calculateDaysToShow w = 3) /\
    (forall w', w <= w' -> calculateDaysToShow w <= calculateDaysToShow w').
Proof.
  exists ((w - ROOM_COLUMN_WIDTH) / DATE_COLUMN_WIDTH).
  repeat split; try (intros w' H; now apply calculateDaysToShow_mono);
    unfold calculateDaysToShow, ROOM_COLUMN_WIDTH, DATE_COLUMN_WIDTH; cbv zeta;
    try (destruct (Z.ltb_spec ((w - 120) / 100) 3);
         [|destruct (Z.ltb_spec 30 ((w - 120) / 100))]);
    try intros H; Z.div_mod_to_equations; lia.
Qed.

Example calculateDaysToShow_1280 : calculateDaysToShow 1280 = 11.
Proof. reflexivity. Qed.

Example calculateDaysToShow_negative : calculateDaysToShow (-500) = 3.
Proof. reflexivity. Qed.

Example calculateDaysToShow_wide : calculateDaysToShow 5000 = 30.
Proof. reflexivity. Qed.

End LayoutFacts.

(* ===================================================================== *)
(** * Sorting the room column *)
(* ===================================================================== *)

Module JsNumberFacts.
Import JsNumber.

Lemma ofInteger_exact n : Z.abs n < 2 ^ 53 -> ofInteger n = Finite n.
Proof.
  intros H. unfold ofInteger. cbv zeta.
  destruct (Z.ltb_spec (Z.abs n) (2 ^ 53)); [reflexivity | lia].
Qed.

(** One unit in the last place is positive and at most the value. *)
Lemma ulp_bounds a :
  2 ^ 53 <= a -> 0 < 2 ^ (Z.log2 a - 52) <= a.
Proof.
  intros H. assert (H53 : 0 < 2 ^ 53) by reflexivity.
  assert (Ha : 0 < a) by lia.
  destruct (Z.log2_spec a Ha) as [Hlo _].
  assert (Hl : 53 <= Z.log2 a).
  { apply Z.log2_le_pow2; [lia | exact H]. }
  split; [apply Z.pow_pos_nonneg; lia|].
  transitivity (2 ^ Z.log2 a); [|exact Hlo].
  apply Z.pow_le_mono_r; lia.
Qed.

(** The rounded significand is at least one. *)
Lemma rounded_positive a :
  2 ^ 53 <= a ->
  let ulp := 2 ^ (Z.log2 a - 52) in
  let q := a / ulp in
  let r := a mod ulp in
  0 < (if 2 * r <? ulp then q
       else if ulp <? 2 * r then q + 1
       else if Z.even q then q else q + 1) * ulp.
Proof.
  intros H ulp q r. destruct (ulp_bounds a H) as [Hpos Hle]. fold ulp in Hpos, Hle.
  assert (Hq : 1 <= q).
  { unfold q. apply Z.div_le_lower_bound; lia. }
  apply Z.mul_pos_pos; [|exact Hpos].
  destruct (2 * r <? ulp); [lia|].
  destruct (ulp <? 2 * r); [lia|].
  destruct (Z.even q); lia.
Qed.

Lemma ofInteger_comparable n : comparable (ofInteger n) = true.
Proof.
  unfold ofInteger. cbv zeta.
  destruct (Z.ltb_spec (Z.abs n) (2 ^ 53)) as [Hs | Hb].
  - cbn [comparable]. apply Z.ltb_lt.
    assert (2 ^ 53 < 2 ^ 1024) by (apply Z.pow_lt_mono_r; lia). lia.
  - pose proof (rounded_positive (Z.abs n) Hb) as Hpos. cbv zeta in Hpos.
    match goal with
    | |- context [?x >=? 2 ^ 1024] => remember x as v eqn:Ev in *
    end.
    destruct (Z.geb_spec v (2 ^ 1024)) as [Hge | Hlt]; [reflexivity|].
    cbn [comparable]. apply Z.ltb_lt.
    assert (Hn : n <> 0) by (assert (0 < 2 ^ 53) by reflexivity; lia).
    clear Ev. remember (2 ^ 1024) as M.
    destruct (Z.lt_trichotomy n 0) as [Hneg | [H0 | Hp]]; [|contradiction|].
    + rewrite Z.sgn_neg by exact Hneg. lia.
    + rewrite Z.sgn_pos by exact Hp. lia.
Qed.

(** Rounding keeps the sign. *)
Lemma ofInteger_positive n : isPositive (ofInteger n) = (n >? 0).
Proof.
  unfold ofInteger. cbv zeta.
  destruct (Z.ltb_spec (Z.abs n) (2 ^ 53)) as [Hs | Hb]; [reflexivity|].
  pose proof (rounded_positive (Z.abs n) Hb) as Hpos. cbv zeta in Hpos.
  assert (Hn : n <> 0) by (assert (0 < 2 ^ 53) by reflexivity; lia).
  match goal with
  | |- context [?x >=? 2 ^ 1024] => remember x as v eqn:Ev in *
  end.
  clear Ev. destruct (v >=? 2 ^ 1024); cbn [isPositive].
  - destruct (Z.ltb_spec n 0), (Z.gtb_spec n 0); cbn; try reflexivity; lia.
  - destruct (Z.gtb_spec n 0) as [Hgt | Hle].
    + rewrite Z.sgn_pos by lia. apply Z.gtb_lt. lia.
    + rewrite Z.sgn_neg by lia.
      destruct (Z.gtb_spec (-1 * v) 0); [lia | reflexivity].
Qed.

Lemma pow_1024_pos : 0 < 2 ^ 1024.
Proof. apply Z.pow_pos_nonneg; lia. Qed.

Ltac order_cases :=
  repeat match goal with
         | |- context [?u >? ?v] => destruct (Z.gtb_spec u v)
         | |- context [?u <=? ?v] => destruct (Z.leb_spec u v)
         | |- context [?u =? ?v] => destruct (Z.eqb_spec u v)
         | H : (_ <? _) = true |- _ => apply Z.ltb_lt in H
         | H : (_ <? _) = false |- _ => apply Z.ltb_ge in H
         end;
  try reflexivity; try discriminate; try lia.

(** The sign [sort] sees of a difference is the sign of the difference
    of the ranks. *)
Lemma sub_positive x y :
  comparable x = true -> comparable y = true ->
  isPositive (match sub x y with NaN => Finite 0 | v => v end)
  = (rank x - rank y >? 0).
Proof.
  pose proof pow_1024_pos as HM.
  destruct x as [|n|a], y as [|m|b]; try discriminate.
  - intros _ _. unfold rank. remember (2 ^ 1024) as M. clear HeqM.
    destruct n, m; cbn [sub Bool.eqb isPositive negb]; order_cases.
  - unfold rank, comparable. remember (2 ^ 1024) as M. clear HeqM.
    intros _ Hy. destruct n; cbn [sub isPositive negb]; order_cases.
  - unfold rank, comparable. remember (2 ^ 1024) as M. clear HeqM.
    intros Hx _. destruct m; cbn [sub isPositive negb]; order_cases.
  - intros _ _. cbn [sub rank]. rewrite <- ofInteger_positive.
    pose proof (ofInteger_comparable (a - b)) as Hc.
    destruct (ofInteger (a - b)); [discriminate Hc | reflexivity ..].
Qed.

Lemma leb_rank x y :
  comparable x = true -> comparable y = true ->
  leb x y = (rank x <=? rank y).
Proof.
  pose proof pow_1024_pos as HM.
  unfold rank, comparable. remember (2 ^ 1024) as M. clear HeqM.
  destruct x as [|n|a], y as [|m|b]; try discriminate; intros Hx Hy;
    try destruct n; try destruct m; cbn [leb]; order_cases.
Qed.

Lemma eqb_rank x y :
  comparable x = true -> comparable y = true ->
  eqb x y = (rank x =? rank y).
Proof.
  pose proof pow_1024_pos as HM.
  unfold rank, comparable. remember (2 ^ 1024) as M. clear HeqM.
  destruct x as [|n|a], y as [|m|b]; try discriminate; intros Hx Hy;
    try destruct n; try destruct m; cbn [eqb Bool.eqb]; order_cases.
Qed.

(** Nothing comparable is equal to a Number that is not. *)
Lemma eqb_incomparable x k :
  comparable x = true -> comparable k = false -> eqb x k = false.
Proof.
  unfold comparable. remember (2 ^ 1024) as M. clear HeqM.
  destruct x as [|n|a], k as [|m|b]; try discriminate; cbn [eqb];
    try reflexivity.
  intros Hx Hk. order_cases.
Qed.

End JsNumberFacts.

Module SortFacts.
Import JsNumber JsArray.

Section ByKey.
Context {A : Type}.
Variable comparefn : A -> A -> Number.
Variable key : A -> Z.

(** [comparefn] orders by [key]: the sign [sort] sees is the sign of
    the difference of the keys. *)
Hypothesis comparefn_key :
  forall a b, isPositive (SortCompare comparefn a b) = (key a - key b >? 0).

Let le_key (a b : A) : Prop := key a <= key b.

Lemma insert_perm x l : Permutation (x :: l) (insert comparefn x l).
Proof.
  induction l as [|y l IH]; cbn; [reflexivity|].
  destruct (isPositive (SortCompare comparefn x y)); [|reflexivity].
  rewrite perm_swap. now constructor.
Qed.

Lemma sort_perm l : Permutation l (sort comparefn l).
Proof.
  induction l as [|x l IH]; cbn; [constructor|].
  rewrite <- insert_perm. now constructor.
Qed.

Lemma insert_sorted x l :
  StronglySorted le_key l -> StronglySorted le_key (insert comparefn x l).
Proof.
  induction 1 as [|y l Hs IH Hy]; cbn.
  - repeat constructor.
  - rewrite comparefn_key.
    destruct (Z.gtb_spec (key x - key y) 0) as [Hgt | Hle].
    + constructor; [assumption|].
      rewrite <- insert_perm. constructor; [|assumption].
      unfold le_key in *. lia.
    + constructor; [now constructor|].
      constructor; [unfold le_key in *; lia|].
      eapply Forall_impl; [|exact Hy].
      intros z Hz. unfold le_key in *. lia.
Qed.

Lemma sort_sorted l : StronglySorted le_key (sort comparefn l).
Proof.
  induction l as [|x l IH]; cbn; [constructor | now apply insert_sorted].
Qed.

(** Stability: the elements that share a key keep their order. *)
Lemma insert_stable k x l :
  filter (fun a => key a =? k) (insert comparefn x l)
  = filter (fun a => key a =? k) (x :: l).
Proof.
  induction l as [|y l IH]; [reflexivity|].
  cbn [insert]. rewrite comparefn_key.
  destruct (Z.gtb_spec (key x - key y) 0) as [Hgt | Hle];
    [|reflexivity].
  cbn [filter] in *. rewrite IH.
  destruct (Z.eqb_spec (key x) k), (Z.eqb_spec (key y) k);
    try reflexivity.
  lia.
Qed.

Lemma sort_stable k l :
  filter (fun a => key a =? k) (sort comparefn l)
  = filter (fun a => key a =? k) l.
Proof.
  induction l as [|x l IH]; [reflexivity|].
  cbn [sort]. rewrite insert_stable. cbn [filter]. now rewrite IH.
Qed.

(** Two lists that are ascending in [key] and agree on the
    subsequence of each key are the same list.  With [sort_sorted] and
    [sort_stable]: whatever stable sorting algorithm the engine runs,
    its result is [sort comparefn l]. *)
Lemma stable_sorted_unique l1 l2 :
  StronglySorted le_key l1 -> StronglySorted le_key l2 ->
  (forall k, filter (fun a => key a =? k) l1 = filter (fun a => key a =? k) l2) ->
  l1 = l2.
Proof.
  intros H1. revert l2.
  induction H1 as [|x l1 Hs1 IH Hx]; intros l2 H2 Heq.
  - destruct l2 as [|y l2]; [reflexivity|].
    specialize (Heq (key y)). cbn in Heq. rewrite Z.eqb_refl in Heq.
    discriminate.
  - destruct H2 as [|y l2 Hs2 Hy].
    + specialize (Heq (key x)). cbn in Heq. rewrite Z.eqb_refl in Heq.
      discriminate.
    + assert (Hxy : key x <= key y).
      { pose proof (Heq (key y)) as E. cbn in E. rewrite Z.eqb_refl in E.
        assert (Hin : In y (filter (fun a => key a =? key y) (x :: l1)))
          by (cbn; rewrite E; now left).
        apply filter_In in Hin as [[<- | Hin] _]; [lia|].
        rewrite Forall_forall in Hx. exact (Hx _ Hin). }
      assert (Hyx : key y <= key x).
      { pose proof (Heq (key x)) as E. cbn in E. rewrite Z.eqb_refl in E.
        assert (Hin : In x (filter (fun a => key a =? key x) (y :: l2)))
          by (cbn [filter]; rewrite <- E; now left).
        apply filter_In in Hin as [[<- | Hin] _]; [lia|].
        rewrite Forall_forall in Hy. exact (Hy _ Hin). }
      assert (Hk : key y = key x) by lia.
      pose proof (Heq (key x)) as E. cbn in E.
      rewrite Hk, Z.eqb_refl in E. injection E as -> E.
      f_equal. apply IH; [assumption|].
      intros k. specialize (Heq k). cbn in Heq.
      destruct (key y =? k); [now injection Heq | assumption].
Qed.

End ByKey.
End SortFacts.

Module RoomFacts.
Import JsNumber JsNumberFacts JsString JsArray SortFacts CalendarView.
Local Open Scope string_scope.

(** A label whose first code unit is neither white space, a sign nor a
    decimal digit has no numeric prefix: [parseInt] gives NaN. *)
Lemma parseInt_no_prefix c rest :
  isWhiteSpace c = false -> c <> "+"%char -> c <> "-"%char ->
  radixDigit 10 c = None ->
  parseInt (String c rest) = NaN.
Proof.
  intros Hws Hplus Hminus Hdig. unfold parseInt. cbn [trimStart]. rewrite Hws.
  assert (Hzero : c <> "0"%char) by (intros ->; discriminate Hdig).
  assert (Hsame :
    match String c rest with
    | String "+" r => r | String "-" r => r | _ => String c rest
    end = String c rest).
  { destruct c as [[] [] [] [] [] [] [] []]; try reflexivity; congruence. }
  rewrite Hsame.
  assert (Hradix :
    match String c rest with
    | String "0" (String "x" r) => (16, r)
    | String "0" (String "X" r) => (16, r)
    | _ => (10, String c rest)
    end = (10, String c rest)).
  { destruct c as [[] [] [] [] [] [] [] []]; try reflexivity; congruence. }
  rewrite Hradix. cbn [parseDigits]. now rewrite Hdig.
Qed.

Lemma parseInt_cases str :
  parseInt str = NaN \/ exists n, parseInt str = ofInteger n.
Proof.
  unfold parseInt. cbv zeta.
  destruct (match match trimStart str with
                  | String "+" rest => rest
                  | String "-" rest => rest
                  | _ => trimStart str
                  end with
            | String "0" (String "x" rest) => (16, rest)
            | String "0" (String "X" rest) => (16, rest)
            | _ => (10, _)
            end) as [R str'].
  destruct (parseDigits R str' None); [right; eauto | now left].
Qed.

(** A sort key is never NaN, and is within the range of binary64. *)
Lemma roomKey_comparable r : comparable (roomKey r) = true.
Proof.
  unfold roomKey, JsNumber.or.
  destruct (parseInt_cases (room_roomNumber r)) as [-> | [n ->]];
    [reflexivity|].
  destruct (JsNumber.truthy (ofInteger n)); [apply ofInteger_comparable | reflexivity].
Qed.

Lemma byRoomNumber_rank a b :
  isPositive (SortCompare byRoomNumber a b)
  = (rank (roomKey a) - rank (roomKey b) >? 0).
Proof.
  unfold SortCompare, byRoomNumber. cbv zeta.
  apply sub_positive; apply roomKey_comparable.
Qed.

Lemma StronglySorted_by {A} (R R' : A -> A -> Prop) l :
  (forall a b, R a b -> R' a b) -> StronglySorted R l -> StronglySorted R' l.
Proof.
  intros HR. induction 1 as [|x l Hs IH Hx]; constructor; [assumption|].
  eapply Forall_impl; [|exact Hx]. auto.
Qed.

Lemma filter_none {A} (p : A -> bool) l :
  (forall x, p x = false) -> filter p l = [].
Proof.
  intros H. induction l as [|x l IH]; [reflexivity|].
  cbn. now rewrite H.
Qed.

(** C7.  When the room list is defined, [filteredRooms] returns a
    permutation of it that is ascending in [roomKey] and keeps rooms
    with equal keys in their original order.  [roomKey] is the Number
    [parseInt] reads from the label, and zero when it reads NaN, which
    it does for a label without a numeric prefix (so a label that
    starts with a letter sorts as zero, while 9A sorts as 9); the
    Number read is the integer of the prefix itself when that is below
    2^53 in absolute value.  The labels 10, 2, 9A come out as 2, 9A,
    10; the labels 9007199254740993 and 9007199254740992, which both
    read as the Number 9007199254740992, keep the order they come
    in. *)
Theorem filteredRooms_sorted (s : State) (rs : list Room) :
  rooms s = Some rs ->
  exists out,
    filteredRooms s = Some out /\
    Permutation rs out /\
    StronglySorted (fun a b => JsNumber.leb (roomKey a) (roomKey b) = true) out /\
    (forall k, filter (fun r => JsNumber.eqb (roomKey r) k) out
               = filter (fun r => JsNumber.eqb (roomKey r) k) rs) /\
    (forall r, parseInt (room_roomNumber r) = NaN -> roomKey r = Finite 0) /\
    (forall r c rest,
        room_roomNumber r = String c rest ->
        isWhiteSpace c = false -> c <> "+"%char -> c <> "-"%char ->
        radixDigit 10 c = None -> roomKey r = Finite 0) /\
    (forall r n, parseInt (room_roomNumber r) = Finite n -> roomKey r = Finite n) /\
    (forall n, Z.abs n < 2 ^ 53 -> ofInteger n = Finite n) /\
    map room_roomNumber
        (sort byRoomNumber
              [roomLabelled "10"; roomLabelled "2"; roomLabelled "9A"])
    = ["2"; "9A"; "10"] /\
    map roomKey [roomLabelled "9007199254740993"; roomLabelled "9007199254740992"]
    = [Finite 9007199254740992; Finite 9007199254740992] /\
    map room_roomNumber
        (sort byRoomNumber
              [roomLabelled "9007199254740993"; roomLabelled "9007199254740992"])
    = ["9007199254740993"; "9007199254740992"].
Proof.
  intros Hrooms. unfold filteredRooms. rewrite Hrooms. cbv zeta.
  eexists; split; [reflexivity|].
  split; [apply (sort_perm byRoomNumber)|].
  split.
  { eapply StronglySorted_by;
      [|apply (sort_sorted byRoomNumber (fun r => rank (roomKey r))
                 byRoomNumber_rank)].
    intros a b H. cbv beta in H.
    rewrite leb_rank by apply roomKey_comparable. now apply Z.leb_le. }
  split.
  { intros k. destruct (comparable k) eqn:Hk.
    - assert (E : forall l : list Room,
                filter (fun r => JsNumber.eqb (roomKey r) k) l
                = filter (fun r => rank (roomKey r) =? rank k)%Z l).
      { intros l. apply filter_ext. intros r.
        apply eqb_rank; [apply roomKey_comparable | exact Hk]. }
      rewrite !E.
      apply (sort_stable byRoomNumber (fun r => rank (roomKey r))
               byRoomNumber_rank).
    - rewrite !filter_none; [reflexivity | |];
        intros r; apply eqb_incomparable;
        [apply roomKey_comparable | exact Hk | apply roomKey_comparable
         | exact Hk]. }
  split; [intros r H; unfold roomKey; now rewrite H|].
  split.
  { intros r c rest Hlabel Hws Hplus Hminus Hdig.
    unfold roomKey. rewrite Hlabel.
    now rewrite parseInt_no_prefix. }
  split.
  { intros r n H. unfold roomKey. rewrite H. unfold JsNumber.or, JsNumber.truthy.
    destruct n; reflexivity. }
  split; [exact ofInteger_exact|].
  split; [reflexivity|]. split; reflexivity.
Qed.

Lemma filteredRooms_sorted_witness :
  exists out,
    filteredRooms
      (set_rooms (Some [roomLabelled "10"; roomLabelled "B2"; roomLabelled "2";
                        roomLabelled "9A"; roomLabelled " 2b"])
                 (initialState (JsDate.fixedOffset 0) 0)) = Some out /\
    map room_roomNumber out = ["B2"; "2"; " 2b"; "9A"; "10"].
Proof.
  destruct (filteredRooms_sorted
              (set_rooms (Some [roomLabelled "10"; roomLabelled "B2"; roomLabelled "2";
                                roomLabelled "9A"; roomLabelled " 2b"])
                         (initialState (JsDate.fixedOffset 0) 0))
              [roomLabelled "10"; roomLabelled "B2"; roomLabelled "2";
               roomLabelled "9A"; roomLabelled " 2b"] eq_refl)
    as (out & Hout & _).
  exists out. split; [exact Hout|].
  cbv in Hout. injection Hout as <-. reflexivity.
Defined.

End RoomFacts.

(* ===================================================================== *)
(** * ISO date strings *)
(* ===================================================================== *)

Module IsoFacts.
Import JsDate CalendarView.
Local Open Scope string_scope.

Lemma freeOf_app sep s1 s2 :
  freeOf sep (s1 ++ s2) = freeOf sep s1 && freeOf sep s2.
Proof.
  induction s1 as [|c s1 IH]; cbn; [reflexivity|].
  now rewrite IH, andb_assoc.
Qed.

Lemma append_empty_r s : s ++ "" = s.
Proof. induction s as [|c s IH]; cbn; [reflexivity | now rewrite IH]. Qed.

Lemma split_first_free sep s1 s2 :
  freeOf sep s1 = true ->
  split_first sep (s1 ++ s2) = s1 ++ split_first sep s2.
Proof.
  induction s1 as [|c s1 IH]; cbn; [reflexivity|].
  intros H. apply andb_prop in H as [Hc Hs].
  destruct (Ascii.eqb c sep); [discriminate|]. now rewrite IH.
Qed.

Lemma split_date a b c rest :
  freeOf "T" a = true -> freeOf "T" b = true -> freeOf "T" c = true ->
  split_first "T" (a ++ "-" ++ b ++ "-" ++ c ++ "T" ++ rest)
  = a ++ "-" ++ b ++ "-" ++ c.
Proof.
  intros Ha Hb Hc.
  rewrite (split_first_free _ a) by assumption. f_equal. cbn.
  rewrite (split_first_free _ b) by assumption. do 2 f_equal. cbn.
  rewrite (split_first_free _ c) by assumption. cbn.
  now rewrite append_empty_r.
Qed.

Lemma digit_not_T n : Ascii.eqb (digit (n mod 10)) "T" = false.
Proof.
  assert (H : 0 <= n mod 10 < 10) by (apply Z.mod_pos_bound; lia).
  assert (Hc : n mod 10 = 0 \/ n mod 10 = 1 \/ n mod 10 = 2 \/ n mod 10 = 3 \/
               n mod 10 = 4 \/ n mod 10 = 5 \/ n mod 10 = 6 \/ n mod 10 = 7 \/
               n mod 10 = 8 \/ n mod 10 = 9) by lia.
  repeat (destruct Hc as [-> | Hc]; [reflexivity|]). now rewrite Hc.
Qed.

Lemma padded_free w n : freeOf "T" (padded w n) = true.
Proof.
  revert n. induction w as [|w IH]; intros n; [reflexivity|].
  cbn [padded]. rewrite freeOf_app, IH. cbn [freeOf andb].
  now rewrite digit_not_T.
Qed.

Lemma isoYear_free y : freeOf "T" (isoYear y) = true.
Proof.
  unfold isoYear.
  destruct (andb _ _); [|destruct (Z.leb _ _)];
    rewrite ?freeOf_app, ?padded_free; reflexivity.
Qed.

(** [formatDateISO] of a valid date is the UTC calendar date of its
    time value, written year-month-day. *)
Lemma formatDateISO_valid t : formatDateISO (Some t) = Some (isoDate t).
Proof.
  unfold formatDateISO, toISOString, isoDate. f_equal.
  apply split_date; auto using isoYear_free, padded_free.
Qed.

Lemma formatDateISO_invalid : formatDateISO None = None.
Proof. reflexivity. Qed.

Lemma formatDateISO_truthy date str :
  formatDateISO date = Some str -> JsString.truthy str = true.
Proof.
  destruct date as [t|]; [|discriminate].
  rewrite formatDateISO_valid. intros [= <-].
  unfold isoDate, isoYear.
  destruct (andb _ _); [|destruct (Z.leb _ _)]; reflexivity.
Qed.

End IsoFacts.

(* ===================================================================== *)
(** * The cells of the grid *)
(* ===================================================================== *)

Module GridFacts.
Import CalendarView IsoFacts.
Local Open Scope string_scope.

Lemma filter_Subsequence {A} (p : A -> bool) (l : list A) :
  Subsequence (filter p l) l.
Proof.
  induction l as [|x l IH]; cbn; [constructor|].
  destruct (p x); now constructor.
Qed.

Lemma filter_filter {A} (p q : A -> bool) (l : list A) :
  filter q (filter p l) = filter (fun x => p x && q x) l.
Proof.
  induction l as [|x l IH]; cbn; [reflexivity|].
  destruct (p x); cbn; [destruct (q x)|]; now rewrite IH.
Qed.

Lemma inCell_spec s roomId' dateStr t :
  inCell s roomId' dateStr t = true <->
  roomId t = roomId' /\ taskDate t = dateStr /\
  (statusFilter s = "all" \/ status_str (status t) = statusFilter s).
Proof.
  unfold inCell.
  rewrite !andb_true_iff, orb_true_iff, !String.eqb_eq. tauto.
Qed.

(** For a defined task list and a date that formats to [dateStr],
    the function returns the tasks of the list that pass [inCell], in
    the order of the list. *)
Lemma getTasksForRoomAndDate_filter (s : State) (ts : list HousekeepingTask)
      (roomId' : string) (date : JsDate.Date) (dateStr : string) :
  tasks s = Some ts ->
  formatDateISO date = Some dateStr ->
  getTasksForRoomAndDate s roomId' date
  = Some (filter (inCell s roomId' dateStr) ts).
Proof.
  intros Hts Hdate.
  unfold getTasksForRoomAndDate. rewrite Hdate, Hts. cbv zeta.
  destruct (statusFilter s =? "all") eqn:Hall; cbn [negb]; f_equal.
  - apply filter_ext. intros t. unfold inCell. rewrite Hall.
    now rewrite orb_true_l, andb_true_r.
  - rewrite filter_filter. apply filter_ext. intros t.
    unfold inCell. now rewrite Hall, orb_false_l.
Qed.

End GridFacts.

(* ===================================================================== *)
(** * Drag, drop, confirm and cancel *)
(* ===================================================================== *)

Module DragFacts.
Import Net Async CalendarView IsoFacts.
Local Open Scope string_scope.

(** Starting a drag on a valid date puts the component in [Dragging],
    whatever state it was in. *)
Lemma handleDragStart_dragging s task' date from :
  formatDateISO date = Some from ->
  exists s1,
    handleDragStart task' date s = Normal s1 /\
    Dragging s1 task' from /\
    pendingMove s1 = pendingMove s /\ tasks s1 = tasks s.
Proof.
  intros Hdate. unfold handleDragStart. rewrite Hdate.
  eexists; split; [reflexivity|]. repeat split.
  cbn. eapply formatDateISO_truthy; eassumption.
Qed.

(** What a drop does to the drag record and the pending move. *)
Lemma handleDrop_dragging_state s dragged from date newDate :
  Dragging s dragged from ->
  formatDateISO date = Some newDate ->
  exists s',
    handleDrop date s = Normal s' /\
    draggedTask s' = None /\ draggedFromDate s' = None /\
    (newDate = from -> pendingMove s' = pendingMove s) /\
    (newDate <> from ->
     pendingMove s'
     = Some {| task := dragged; fromDate := from; toDate := newDate |}).
Proof.
  intros (Htask & Hfrom & Htruthy) Hdate.
  unfold handleDrop. rewrite Htask, Hfrom, Htruthy, Hdate. cbn [negb].
  destruct (String.eqb_spec newDate from) as [Heq | Hne];
    (eexists; split; [reflexivity|]); cbn; repeat split; congruence.
Qed.

(** C2.  A drop while a drag is in flight, on a cell whose date
    formats to [newDate], returns normally, clears the dragged task and
    the origin date, and sends nothing.  When [newDate] is the origin
    date the pending move is left as it was (none is created); when it
    differs the pending move becomes the dragged task with the origin
    date as [fromDate] and [newDate] as [toDate]. *)
Theorem handleDrop_dragging (s : State) (dragged : HousekeepingTask)
        (from : string) (date : JsDate.Date) (newDate : string) :
  Dragging s dragged from ->
  formatDateISO date = Some newDate ->
  exists s',
    handleDrop date s = Normal s' /\
    draggedTask s' = None /\ draggedFromDate s' = None /\
    (newDate = from ->
     pendingMove s' = pendingMove s /\
     s' = set_draggedFromDate None (set_draggedTask None s)) /\
    (newDate <> from ->
     pendingMove s'
     = Some {| task := dragged; fromDate := from; toDate := newDate |}) /\
    tasks s' = tasks s /\ loading s' = loading s /\ error s' = error s /\
    run (J := Json) (sync (handleDrop date) s) [] = Some (s', []).
Proof.
  intros (Htask & Hfrom & Htruthy) Hdate.
  unfold sync, handleDrop. rewrite Htask, Hfrom, Htruthy, Hdate. cbn [negb].
  destruct (String.eqb_spec newDate from) as [Heq | Hne];
    (eexists; split; [reflexivity|]); cbn; repeat split; congruence.
Qed.

(** Task 1 is dragged from the column of 1 June 2024: dropped on the
    same column nothing is staged, dropped on 3 June the move from
    2024-06-01 to 2024-06-03 is staged. *)
Lemma handleDrop_dragging_witness :
  let t1 := taskOf "1" "R1" "2024-06-01" in
  let s1 := stateOf (handleDragStart t1 (Some 1717200000000)
                       (set_tasks (Some [t1]) (initialState (JsDate.fixedOffset 0) 0))) in
  pendingMove (stateOf (handleDrop (Some 1717200000000) s1)) = None /\
  pendingMove (stateOf (handleDrop (Some 1717372800000) s1))
  = Some {| task := t1; fromDate := "2024-06-01"; toDate := "2024-06-03" |}.
Proof.
  intros t1 s1.
  assert (Hdrag : Dragging s1 t1 "2024-06-01") by (repeat split).
  split.
  - destruct (handleDrop_dragging s1 t1 "2024-06-01" (Some 1717200000000)
                "2024-06-01" Hdrag eq_refl) as (s' & Hrun & _ & _ & Hsame & _).
    rewrite Hrun. cbn [stateOf]. now destruct (Hsame eq_refl) as [-> _].
  - destruct (handleDrop_dragging s1 t1 "2024-06-01" (Some 1717372800000)
                "2024-06-03" Hdrag eq_refl) as (s' & Hrun & _ & _ & _ & Hdiff & _).
    rewrite Hrun. cbn [stateOf]. apply Hdiff. discriminate.
Defined.

End DragFacts.

Module ConfirmFacts.
Import Net Async CalendarView IsoFacts.
Local Open Scope string_scope.

Lemma orElse_truthy a b :
  JsString.truthy b = true -> JsString.truthy (orElse a b) = true.
Proof.
  intros Hb. unfold orElse. destruct a as [x|]; [|assumption].
  destruct (JsString.truthy x) eqn:Hx; assumption.
Qed.

(** C1.  With a pending move [pm], [confirmMove] raises the busy flag
    and suspends on exactly the request [putRequest pm].  Resumed with a
    2xx response it clears the pending move and suspends on the one
    re-fetch of the task list, still without having lowered the busy
    flag (it is still raised while the re-fetch is in flight); only
    when that request has completed does it lower the flag and finish,
    with the task list of the response in place.  Run without
    interruption the requests sent are that PUT and that GET, in this
    order, and no other. *)
Theorem confirmMove_success (s : State) (pm : PendingMove) :
  pendingMove s = Some pm ->
  exists k1,
    confirmMove s = Await (set_error "" (set_loading true s)) (putRequest pm) k1 /\
    (forall json sa,
        exists k2,
          k1 (Response true json) sa
          = Await (set_pendingMove None sa) tasksRequest k2 /\
          forall o sb,
            exists s3,
              k2 o sb = Done tt s3 /\
              loading s3 = false /\
              pendingMove s3 = pendingMove sb /\
              (forall ok data, o = Response ok (Some (JObject data)) ->
                               tasks s3 = j_tasks data)) /\
    (forall json,
        loading (yielded (k1 (Response true json)
                             (set_error "" (set_loading true s)))) = true) /\
    (forall json o,
        exists s3,
          run (confirmMove s) [Response true json; o]
          = Some (s3, [putRequest pm; tasksRequest]) /\
          pendingMove s3 = None /\ loading s3 = false /\
          (forall ok data, o = Response ok (Some (JObject data)) ->
                           tasks s3 = j_tasks data)).
Proof.
  intros Hpm. unfold confirmMove. cbn. rewrite Hpm. cbn.
  eexists; split; [reflexivity|]. split; [|split; [reflexivity|]].
  - intros json sa. eexists; split; [reflexivity|].
    intros o sb.
    destruct o as [|ok [[|data]|]];
      (eexists; split; [reflexivity|]); cbn; repeat split; congruence.
  - intros json o.
    destruct o as [|ok [[|data]|]];
      (eexists; split; [reflexivity|]); cbn; repeat split; congruence.
Qed.

(** The scenario of the specification: the task list holds task 1 of
    room R1 on 2024-06-01, the task is dragged to 2024-06-03 and the
    move confirmed.  The PUT goes to housekeeping-tasks/1 with the body
    taskDate 2024-06-03, the list is fetched once, and the grid then
    shows task 1 under 3 June and not under 1 June. *)
Lemma confirmMove_success_witness :
  let t1 := taskOf "1" "R1" "2024-06-01" in
  let t1' := taskOf "1" "R1" "2024-06-03" in
  let s0 := set_tasks (Some [t1]) (initialState (JsDate.fixedOffset 0) 0) in
  let s1 := stateOf (handleDragStart t1 (Some 1717200000000) s0) in
  let s2 := stateOf (handleDrop (Some 1717372800000) s1) in
  let stored := {| j_error := None; j_tasks := Some [t1']; j_rooms := None |} in
  exists s3,
    run (confirmMove s2) [Response true None; Response true (Some (JObject stored))]
    = Some (s3,
            [ {| url := "http://localhost:3000/housekeeping-tasks/1";
                 method := PUT;
                 headers := [("Content-Type", "application/json")];
                 body := Some [("taskDate", "2024-06-03")] |};
              Net.get "http://localhost:3000/housekeeping-tasks" ]) /\
    pendingMove s3 = None /\ loading s3 = false /\
    getTasksForRoomAndDate s3 "R1" (Some 1717372800000) = Some [t1'] /\
    getTasksForRoomAndDate s3 "R1" (Some 1717200000000) = Some [].
Proof.
  intros t1 t1' s0 s1 s2 stored.
  destruct (confirmMove_success s2
              {| task := t1; fromDate := "2024-06-01"; toDate := "2024-06-03" |}
              eq_refl) as (k1 & _ & _ & _ & Hrun).
  destruct (Hrun None (Response true (Some (JObject stored))))
    as (s3 & Hs3 & Hpm & Hload & Htasks).
  exists s3. split; [exact Hs3|]. split; [exact Hpm|]. split; [exact Hload|].
  cbv in Hs3. injection Hs3 as <-. split; reflexivity.
Defined.

(** C3.  With a pending move [pm], when the PUT fails (the promise
    rejects or the response is not 2xx) [confirmMove] finishes without
    sending anything else: the pending move is cleared, the error
    message is non-empty, the busy flag is lowered, and the task list,
    the rooms and hence every cell of the grid are as they were.
    [cancelMove] clears the pending move, changes nothing else and
    sends nothing. *)
Theorem confirmMove_failure (s : State) (pm : PendingMove) :
  pendingMove s = Some pm ->
  exists k1,
    confirmMove s = Await (set_error "" (set_loading true s)) (putRequest pm) k1 /\
    (forall o sa,
        failed o = true ->
        exists s3,
          k1 o sa = Done tt s3 /\
          pendingMove s3 = None /\
          JsString.truthy (error s3) = true /\
          loading s3 = false /\
          tasks s3 = tasks sa /\ rooms s3 = rooms sa /\
          forall room date,
            getTasksForRoomAndDate s3 room date
            = getTasksForRoomAndDate sa room date) /\
    (forall o,
        failed o = true ->
        exists s3,
          run (confirmMove s) [o] = Some (s3, [putRequest pm]) /\
          pendingMove s3 = None /\
          JsString.truthy (error s3) = true /\
          loading s3 = false /\
          tasks s3 = tasks s) /\
    pendingMove (cancelMove s) = None /\
    cancelMove s = set_pendingMove None s /\
    run (J := Json) (modify cancelMove s) [] = Some (cancelMove s, []).
Proof.
  intros Hpm. unfold confirmMove. cbn. rewrite Hpm. cbn.
  eexists; split; [reflexivity|]. split; [|split].
  - intros o sa Hfail.
    destruct o as [|[|] [[|data]|]]; try discriminate Hfail;
      (eexists; split; [reflexivity|]); cbn;
      repeat split; auto using orElse_truthy.
  - intros o Hfail.
    destruct o as [|[|] [[|data]|]]; try discriminate Hfail;
      (eexists; split; [reflexivity|]); cbn;
      repeat split; auto using orElse_truthy.
  - repeat split.
Qed.

(** The store rejects the move of task 1 with a message: the message is
    shown, nothing is pending, and the task list still has the task on
    2024-06-01. *)
Lemma confirmMove_failure_witness :
  let t1 := taskOf "1" "R1" "2024-06-01" in
  let s0 := set_tasks (Some [t1]) (initialState (JsDate.fixedOffset 0) 0) in
  let s1 := stateOf (handleDragStart t1 (Some 1717200000000) s0) in
  let s2 := stateOf (handleDrop (Some 1717372800000) s1) in
  let refusal := {| j_error := Some "Task already exists for that day";
                    j_tasks := None; j_rooms := None |} in
  exists s3,
    run (confirmMove s2) [Response false (Some (JObject refusal))]
    = Some (s3, [putRequest {| task := t1; fromDate := "2024-06-01";
                               toDate := "2024-06-03" |}]) /\
    pendingMove s3 = None /\ loading s3 = false /\
    error s3 = "Task already exists for that day" /\
    tasks s3 = Some [t1].
Proof.
  intros t1 s0 s1 s2 refusal.
  destruct (confirmMove_failure s2
              {| task := t1; fromDate := "2024-06-01"; toDate := "2024-06-03" |}
              eq_refl) as (k1 & _ & _ & Hrun & _).
  destruct (Hrun (Response false (Some (JObject refusal))) eq_refl)
    as (s3 & Hs3 & Hpm & _ & Hload & Htasks).
  exists s3. split; [exact Hs3|]. split; [exact Hpm|]. split; [exact Hload|].
  split; [|exact Htasks].
  cbv in Hs3. injection Hs3 as <-. reflexivity.
Defined.

End ConfirmFacts.

Module PendingFacts.
Import Net Async CalendarView IsoFacts DragFacts.
Local Open Scope string_scope.

(** C4, as stated, fails.  While the move of task 1 from 2024-06-01 to
    2024-06-03 is outstanding, a drag of task 2 begins (the dragged
    task is recorded, the outstanding move still in place), and its
    drop on 4 June puts the move of task 2 in the place of the move of
    task 1. *)
Lemma second_drag_replaces_pending :
  let t1 := taskOf "1" "R1" "2024-06-01" in
  let t2 := taskOf "2" "R1" "2024-06-02" in
  let pm1 := {| task := t1; fromDate := "2024-06-01"; toDate := "2024-06-03" |} in
  let pm2 := {| task := t2; fromDate := "2024-06-02"; toDate := "2024-06-04" |} in
  let s0 := set_pendingMove (Some pm1)
              (set_tasks (Some [t1; t2]) (initialState (JsDate.fixedOffset 0) 0)) in
  exists s1 s2,
    pendingMove s0 = Some pm1 /\
    handleDragStart t2 (Some 1717286400000) s0 = Normal s1 /\
    draggedTask s1 = Some t2 /\ pendingMove s1 = Some pm1 /\
    handleDrop (Some 1717459200000) s1 = Normal s2 /\
    pendingMove s2 = Some pm2 /\ pm2 <> pm1.
Proof.
  intros t1 t2 pm1 pm2 s0. do 2 eexists.
  repeat split; try reflexivity. discriminate.
Qed.

(** C4, amended.  The component has one slot for a pending move, so at
    most one exists at any time; but an outstanding move does not stop
    a new drag.  From any state with a pending move [pm],
    [handleDragStart] on a valid date records the drag and leaves [pm]
    in place, and the drop that follows clears the drag record and
    leaves in the slot either [pm] itself (dropped on the origin date)
    or the move of the newly dragged task, [pm] being discarded
    (dropped on another date). *)
Theorem drag_while_pending (s : State) (pm : PendingMove)
        (task' : HousekeepingTask) (date : JsDate.Date) (from : string) :
  pendingMove s = Some pm ->
  formatDateISO date = Some from ->
  exists s1,
    handleDragStart task' date s = Normal s1 /\
    Dragging s1 task' from /\
    pendingMove s1 = Some pm /\
    forall date' newDate,
      formatDateISO date' = Some newDate ->
      exists s2,
        handleDrop date' s1 = Normal s2 /\
        draggedTask s2 = None /\ draggedFromDate s2 = None /\
        pendingMove s2
        = Some (if newDate =? from then pm
                else {| task := task'; fromDate := from; toDate := newDate |}).
Proof.
  intros Hpm Hdate.
  destruct (handleDragStart_dragging s task' date from Hdate)
    as (s1 & Hstart & Hdrag & Hkeep & _).
  exists s1. split; [exact Hstart|]. split; [exact Hdrag|].
  split; [congruence|].
  intros date' newDate Hdate'.
  destruct (handleDrop_dragging_state s1 task' from date' newDate Hdrag Hdate')
    as (s2 & Hdrop & Ht & Hf & Hsame & Hdiff).
  exists s2. repeat split; try assumption.
  destruct (String.eqb_spec newDate from) as [Heq | Hne].
  - rewrite (Hsame Heq). congruence.
  - exact (Hdiff Hne).
Qed.

Lemma drag_while_pending_witness :
  let t1 := taskOf "1" "R1" "2024-06-01" in
  let t2 := taskOf "2" "R1" "2024-06-02" in
  let pm1 := {| task := t1; fromDate := "2024-06-01"; toDate := "2024-06-03" |} in
  let s0 := set_pendingMove (Some pm1)
              (set_tasks (Some [t1; t2]) (initialState (JsDate.fixedOffset 0) 0)) in
  exists s1,
    handleDragStart t2 (Some 1717286400000) s0 = Normal s1 /\
    Dragging s1 t2 "2024-06-02" /\ pendingMove s1 = Some pm1.
Proof.
  intros t1 t2 pm1 s0.
  destruct (drag_while_pending s0 pm1 t2 (Some 1717286400000) "2024-06-02"
              eq_refl eq_refl) as (s1 & Hstart & Hdrag & Hpm & _).
  exists s1. split; [exact Hstart|]. split; [exact Hdrag | exact Hpm].
Defined.

End PendingFacts.

Module FrameFacts.
Import Net Async CalendarView.
Local Open Scope string_scope.

Lemma fetchTasks_effect s :
  exists k,
    fetchTasks s = Await s tasksRequest k /\
    forall o sa,
      exists s',
        k o sa = Done tt s' /\
        rooms s' = rooms sa /\ pendingMove s' = pendingMove sa /\
        loading s' = loading sa /\
        tasks s' = match o with
                   | Response _ (Some (JObject data)) => j_tasks data
                   | _ => tasks sa
                   end.
Proof.
  eexists; split; [reflexivity|]. intros o sa.
  destruct o as [|ok [[|data]|]]; (eexists; split; [reflexivity|]);
    repeat split.
Qed.

Lemma confirmMove_tasks s net s' reqs :
  run (confirmMove s) net = Some (s', reqs) ->
  tasks s' = tasks s \/
  exists json ok data net',
    net = Response true json :: Response ok (Some (JObject data)) :: net' /\
    In tasksRequest reqs /\ tasks s' = j_tasks data.
Proof.
  unfold confirmMove. cbn. destruct (pendingMove s) as [pm|]; cbn.
  - destruct net as [|o net]; [discriminate|].
    destruct o as [|[|] json].
    + intros [= <- <-]. now left.
    + cbn. destruct net as [|o2 net]; [discriminate|].
      destruct o2 as [|ok [[|data]|]]; cbn; intros [= <- <-];
        try (now left).
      right. exists json, ok, data, net. repeat split. cbn. auto.
    + destruct json as [[|data]|]; cbn; intros [= <- <-]; now left.
  - intros [= <- <-]. now left.
Qed.

Lemma fetchRooms_tasks s net s' reqs :
  run (fetchRooms s) net = Some (s', reqs) -> tasks s' = tasks s.
Proof.
  cbn. destruct net as [|o net]; [discriminate|].
  destruct o as [|ok [[|data]|]]; cbn; now intros [= <- <-].
Qed.

(** C10.  [handleDragStart], [handleDrop] and [cancelMove], whether
    they return or throw, leave the task list and the room list as
    they were (task records are values: with the list unchanged no
    field of any task has changed, and a staged move carries the
    dragged task as it is), and they never suspend on a request.  The
    asynchronous handlers change the task list only by the assignment
    in [fetchTasks]: after [fetchTasks] the list is the [tasks] member
    of the response or is unchanged, [fetchRooms] leaves it alone, and
    after [confirmMove] it is unchanged unless the re-fetch was sent
    and its response was assigned. *)
Theorem staging_frame (s : State) (task' : HousekeepingTask)
        (date : JsDate.Date) :
  (let s' := stateOf (handleDragStart task' date s) in
   tasks s' = tasks s /\ rooms s' = rooms s /\
   run (J := Json) (sync (handleDragStart task' date) s) [] = Some (s', [])) /\
  (let s' := stateOf (handleDrop date s) in
   tasks s' = tasks s /\ rooms s' = rooms s /\
   (forall pm, pendingMove s' = Some pm ->
               pendingMove s = Some pm \/ draggedTask s = Some (task pm)) /\
   run (J := Json) (sync (handleDrop date) s) [] = Some (s', [])) /\
  (let s' := cancelMove s in
   tasks s' = tasks s /\ rooms s' = rooms s /\
   run (J := Json) (modify cancelMove s) [] = Some (s', [])) /\
  (exists k,
      fetchTasks s = Await s tasksRequest k /\
      forall o sa,
        exists s',
          k o sa = Done tt s' /\
          tasks s' = match o with
                     | Response _ (Some (JObject data)) => j_tasks data
                     | _ => tasks sa
                     end) /\
  (forall net s' reqs,
      run (fetchRooms s) net = Some (s', reqs) -> tasks s' = tasks s) /\
  (forall net s' reqs,
      run (confirmMove s) net = Some (s', reqs) ->
      tasks s' = tasks s \/
      exists json ok data net',
        net = Response true json :: Response ok (Some (JObject data)) :: net' /\
        In tasksRequest reqs /\ tasks s' = j_tasks data).
Proof.
  split; [|split; [|split; [|split; [|split]]]].
  - unfold sync, handleDragStart. destruct (formatDateISO date); repeat split.
  - unfold sync, handleDrop.
    destruct (draggedTask s) as [dragged|] eqn:Ht;
      [destruct (draggedFromDate s) as [from|]|]; cbn; auto 6.
    destruct (JsString.truthy from); cbn; auto 6.
    destruct (formatDateISO date) as [newDate|]; cbn; auto 6.
    destruct (newDate =? from); cbn; repeat split; auto.
    intros pm [= <-]. now right.
  - repeat split.
  - destruct (fetchTasks_effect s) as (k & Hk & Heff).
    exists k. split; [exact Hk|]. intros o sa.
    destruct (Heff o sa) as (s' & Hs' & _ & _ & _ & Htasks). eauto.
  - apply fetchRooms_tasks.
  - apply confirmMove_tasks.
Qed.

End FrameFacts.

(* ===================================================================== *)
(** * The add-task form *)
(* ===================================================================== *)

Module AddTaskFacts.
Import Net Async HousekeepingTaskManager.
Local Open Scope string_scope.

Lemma truthy_empty str : JsString.truthy str = false <-> str = "".
Proof. destruct str; cbn; split; congruence. Qed.

(** With the three required fields filled in, the form is posted. *)
Lemma addTask_posts now s :
  JsString.truthy (f_roomId (formData s)) = true ->
  JsString.truthy (f_assignedUserId (formData s)) = true ->
  JsString.truthy (f_taskDate (formData s)) = true ->
  inFlight (addTask now s)
  = Some {| url := API_URL ++ "/housekeeping-tasks"; method := POST;
            headers := [("Content-Type", "application/json")];
            body := Some (formBody (formData s)) |} /\
  loading (yielded (addTask now s)) = true.
Proof.
  intros H1 H2 H3. unfold addTask. cbn. rewrite H1, H2, H3. cbn. now split.
Qed.

(** C9.  When the room, the assigned user or the task date of the form
    is empty, [addTask] returns at once without suspending on any
    request; the error message is set (and is non-empty), the loading
    flag is what it was, so it stays false, and the form and the task
    list are untouched. *)
Theorem addTask_missing_field (now : Z) (s : State) :
  f_roomId (formData s) = "" \/ f_assignedUserId (formData s) = "" \/
  f_taskDate (formData s) = "" ->
  exists s',
    addTask now s = Done tt s' /\
    inFlight (addTask now s) = None /\
    run (addTask now s) [] = Some (s', []) /\
    error s' = "Room, assigned user, and task date are required" /\
    JsString.truthy (error s') = true /\
    loading s' = loading s /\
    (loading s = false -> loading s' = false) /\
    formData s' = formData s /\ tasks s' = tasks s.
Proof.
  intros H.
  assert (Hguard :
    negb (JsString.truthy (f_roomId (formData s)))
    || negb (JsString.truthy (f_assignedUserId (formData s)))
    || negb (JsString.truthy (f_taskDate (formData s))) = true).
  { destruct H as [H | [H | H]]; rewrite H; cbn;
      rewrite ?orb_true_r; reflexivity. }
  exists (set_error "Room, assigned user, and task date are required" s).
  unfold addTask. cbn. rewrite Hguard. cbn. repeat split; auto.
Qed.

(** The form as first shown has no room selected: submitting it sends
    nothing and leaves the loading flag false. *)
Lemma addTask_missing_field_witness :
  exists s',
    run (addTask 1717200000000 (initialState 1717200000000)) [] = Some (s', []) /\
    error s' = "Room, assigned user, and task date are required" /\
    loading s' = false.
Proof.
  destruct (addTask_missing_field 1717200000000 (initialState 1717200000000)
              (or_introl eq_refl))
    as (s' & _ & _ & Hrun & Herr & _ & _ & Hload & _).
  exists s'. split; [exact Hrun|]. split; [exact Herr | exact (Hload eq_refl)].
Defined.

End AddTaskFacts.

(* ===================================================================== *)
(** * Today, navigation and resizing *)
(* ===================================================================== *)

Module TodayFacts.
Import JsDate JsDateFacts CalendarView CalendarPage DatesFacts.

Lemma firstn_seq_le n m a : (n <= m)%nat -> firstn n (seq a m) = seq a n.
Proof.
  revert m a. induction n as [|n IH]; intros m a H; [reflexivity|].
  destruct m as [|m]; [lia|]. cbn. f_equal. apply IH. lia.
Qed.

Section Zone.
Variable LocalTZA : TimeZone.

Lemma isToday_invalid now : isToday LocalTZA now None = false.
Proof. reflexivity. Qed.

Lemma navigateDays_state a s :
  fst (navigateDays LocalTZA a s)
  = set_startDate (column LocalTZA (startDate s) a)
      (set_transitionDirection (Some (if a >? 0 then right else left)) s).
Proof. reflexivity. Qed.

Lemma navigateDays_invalid a s :
  startDate s = None -> startDate (fst (navigateDays LocalTZA a s)) = None.
Proof. intros H. rewrite navigateDays_state. cbn. now rewrite H. Qed.

(** X1.  [navigateDays] from a valid start date, in any time zone.
    The call sets [transitionDirection] to right for a positive offset
    and to left otherwise, sets one timer of 400 ms whose callback
    clears it, and changes no other ref but the start date.  When the
    zone reads the local time aimed at as a representable instant of
    its own local day, the new start date is that instant, [a]
    calendar days from the old one.  A second call by [b] days lands
    [a + b] calendar days from the first start date, so going back by
    [- a] returns to the calendar day started from; where the zone's
    offset never changes it returns to the very instant, and then the
    state differs from the first one in [transitionDirection] only. *)
Theorem navigateDays_round_trip a s t0 :
  startDate s = Some t0 ->
  - maxTime <= t0 <= maxTime ->
  - maxTime <= UTC LocalTZA (columnLocal LocalTZA t0 a) <= maxTime ->
  keepsDay LocalTZA (columnLocal LocalTZA t0 a) ->
  let t1 := UTC LocalTZA (columnLocal LocalTZA t0 a) in
  let s1 := fst (navigateDays LocalTZA a s) in
  s1 = set_startDate (Some t1)
         (set_transitionDirection (Some (if a >? 0 then right else left)) s) /\
  snd (navigateDays LocalTZA a s) = [(400, set_transitionDirection None)] /\
  localDay LocalTZA t1 = localDay LocalTZA t0 + a /\
  (forall b,
     let t2 := UTC LocalTZA (columnLocal LocalTZA t1 b) in
     let s2 := fst (navigateDays LocalTZA b s1) in
     - maxTime <= t2 <= maxTime ->
     keepsDay LocalTZA (columnLocal LocalTZA t1 b) ->
     s2 = set_startDate (Some t2)
            (set_transitionDirection (Some (if b >? 0 then right else left)) s) /\
     localDay LocalTZA t2 = localDay LocalTZA t0 + (a + b) /\
     (b = - a -> localDay LocalTZA t2 = localDay LocalTZA t0) /\
     (forall off, (forall t u, LocalTZA t u = off) ->
        t2 = t0 + (a + b) * msPerDay /\
        (b = - a -> set_transitionDirection (transitionDirection s) s2 = s))).
Proof.
  intros Hs H0 H1 Hk t1 s1.
  destruct (column_local_day LocalTZA t0 a H0 H1 Hk) as [Hc Hday].
  assert (Es1 : s1 = set_startDate (Some t1)
            (set_transitionDirection (Some (if a >? 0 then right else left)) s)).
  { unfold s1. now rewrite navigateDays_state, Hs, Hc. }
  split; [exact Es1|]. split; [reflexivity|]. split; [exact Hday|].
  intros b t2 s2 H2 Hk2.
  destruct (column_local_day LocalTZA t1 b H1 H2 Hk2) as [Hc2 Hday2].
  assert (Es2 : s2 = set_startDate (Some t2)
            (set_transitionDirection (Some (if b >? 0 then right else left)) s)).
  { unfold s2. rewrite navigateDays_state, Es1. cbn [startDate set_startDate].
    now rewrite Hc2. }
  split; [exact Es2|].
  assert (Hd2 : localDay LocalTZA t2 = localDay LocalTZA t0 + (a + b)).
  { unfold t2. rewrite Hday2. unfold t1. rewrite Hday. lia. }
  split; [exact Hd2|]. split; [intros ->; lia|].
  intros off Hoff.
  assert (Et2 : t2 = t0 + (a + b) * msPerDay).
  { unfold t2, t1. rewrite !(columnLocal_constant LocalTZA off) by assumption.
    lia. }
  split; [exact Et2|]. intros ->. rewrite Es2, Et2.
  replace (t0 + (a + - a) * msPerDay) with t0 by lia.
  rewrite <- Hs. now destruct s.
Qed.

(** X4.  A resize changes the number of columns and nothing else of
    the window: for widths [w <= w'] the columns at width [w] are the
    first columns at width [w'], there are exactly
    [calculateDaysToShow w] of them, and a resize while the container
    is not rendered leaves the columns as they are. *)
Theorem resize_keeps_columns w w' s :
  w <= w' ->
  let narrow := dates LocalTZA (updateContainerWidth (Some w) s) in
  let wide := dates LocalTZA (updateContainerWidth (Some w') s) in
  List.length narrow = Z.to_nat (calculateDaysToShow w) /\
  (List.length narrow <= List.length wide)%nat /\
  narrow = firstn (List.length narrow) wide /\
  dates LocalTZA (updateContainerWidth None s) = dates LocalTZA s.
Proof.
  intros Hw narrow wide.
  pose proof (LayoutFacts.calculateDaysToShow_mono w w' Hw) as Hmono.
  assert (Hn : List.length narrow = Z.to_nat (calculateDaysToShow w))
    by (unfold narrow; now rewrite dates_length).
  assert (Hwd : List.length wide = Z.to_nat (calculateDaysToShow w'))
    by (unfold wide; now rewrite dates_length).
  split; [exact Hn|]. split; [lia|]. split; [|reflexivity].
  rewrite Hn. unfold narrow, wide, dates. rewrite !dates_loop_spec. cbn [app].
  cbn [daysToShow startDate updateContainerWidth set_daysToShow set_containerWidth].
  rewrite firstn_map, firstn_seq_le by lia. reflexivity.
Qed.

End Zone.

Section FixedOffset.
Variable offset : Z.
Local Abbreviation LocalTZA := (fixedOffset offset).

Lemma setHours0_midnight t :
  midnightInRange t ->
  setHours0 LocalTZA (Some t) = Some (localDay LocalTZA t * msPerDay - offset).
Proof.
  intros [Hlo Hhi].
  unfold setHours0, localDay, MakeDate, MakeTime, UTC, fixedOffset. cbv zeta.
  rewrite TimeClip_in_range; [f_equal; lia|].
  unfold LocalTime, Day, msPerDay in *. Z.div_mod_to_equations. lia.
Qed.

Lemma isToday_spec now t :
  midnightInRange now -> midnightInRange t ->
  isToday LocalTZA now (Some t) = true
  <-> localDay LocalTZA t = localDay LocalTZA now.
Proof.
  intros Hnow Ht. unfold isToday. cbv zeta.
  unfold newDate. rewrite TimeClip_in_range by (unfold midnightInRange, msPerDay in *; lia).
  rewrite !setHours0_midnight by assumption. cbn [sameTime].
  rewrite Z.eqb_eq. unfold msPerDay. lia.
Qed.


Lemma setDate_getDate_shift t i :
  setDate LocalTZA (Some t) (option_map (fun d => d + i) (getDate LocalTZA (Some t)))
  = TimeClip (t + i * msPerDay).
Proof.
  cbn [getDate option_map setDate]. cbv zeta.
  rewrite MakeDay_shift, MakeDate_shift.
  unfold UTC, LocalTime, fixedOffset. f_equal. lia.
Qed.

Lemma goToToday_startDate now s :
  - maxTime + msPerDay <= now <= maxTime ->
  startDate (goToToday LocalTZA now s) = Some (now - msPerDay).
Proof.
  intros H. unfold goToToday. cbn [startDate set_startDate].
  change (fun d => d - 1) with (fun d => d + -1).
  rewrite setDate_getDate_shift.
  now rewrite TimeClip_in_range by (unfold msPerDay in *; lia).
Qed.

Lemma localDay_shift t i :
  localDay LocalTZA (t + i * msPerDay) = localDay LocalTZA t + i.
Proof.
  unfold localDay, LocalTime, Day, fixedOffset.
  replace (t + i * msPerDay + offset) with (t + offset + i * msPerDay) by lia.
  apply Z.div_add. unfold msPerDay. lia.
Qed.


End FixedOffset.



(** In New York, from 9 March 2024 at 02:30 local time: one day on,
    02:30 does not exist (the clocks go forward), and the start date
    becomes 03:30 on the 10th; one day back again it is 03:30 on the
    9th, the day started from but an hour later. *)
Lemma navigateDays_round_trip_witness :
  let s := set_startDate (Some 1709969400000) (initialState newYork2024 0) in
  let s1 := fst (navigateDays newYork2024 1 s) in
  let s2 := fst (navigateDays newYork2024 (-1) s1) in
  startDate s1 = Some 1710055800000 /\
  transitionDirection s1 = Some right /\
  startDate s2 = Some 1709973000000 /\
  transitionDirection s2 = Some left /\
  localDay newYork2024 1709973000000 = localDay newYork2024 1709969400000.
Proof.
  intros s s1 s2.
  destruct (navigateDays_round_trip newYork2024 1 s 1709969400000)
    as (Hs1 & _ & _ & Hback);
    [reflexivity | unfold maxTime; lia | vm_compute; split; discriminate
     | reflexivity |].
  destruct (Hback (-1)) as (Hs2 & _ & Hday & _);
    [vm_compute; split; discriminate | reflexivity |].
  fold s1 in Hs1, Hs2. fold s2 in Hs2.
  split; [now rewrite Hs1|]. split; [now rewrite Hs1|].
  split; [now rewrite Hs2|]. split; [now rewrite Hs2|].
  exact (Hday eq_refl).
Defined.

Lemma resize_keeps_columns_witness :
  let s := initialState (JsDate.fixedOffset 0) 1717279200000 in
  dates (JsDate.fixedOffset 0) (updateContainerWidth (Some 500) s)
  = firstn 3 (dates (JsDate.fixedOffset 0) (updateContainerWidth (Some 1280) s)).
Proof.
  intros s.
  destruct (resize_keeps_columns (JsDate.fixedOffset 0) 500 1280 s)
    as (_ & _ & Hprefix & _); [lia|].
  exact Hprefix.
Defined.

End TodayFacts.

(* ===================================================================== *)
(** * ISO date strings and calendar days *)
(* ===================================================================== *)

Module IsoDayFacts.
Import JsDate JsDateFacts CalendarView IsoFacts.
Local Open Scope string_scope.

Lemma length_append s1 s2 :
  String.length (s1 ++ s2) = (String.length s1 + String.length s2)%nat.
Proof. induction s1 as [|c s1 IH]; cbn; [reflexivity | now rewrite IH]. Qed.

Lemma append_inj s1 s2 t1 t2 :
  String.length s1 = String.length s2 ->
  s1 ++ t1 = s2 ++ t2 -> s1 = s2 /\ t1 = t2.
Proof.
  revert s2. induction s1 as [|c s1 IH]; intros [|c2 s2] Hlen H;
    try discriminate Hlen; cbn in *.
  - now split.
  - injection H as -> H. injection Hlen as Hlen.
    destruct (IH s2 Hlen H) as [-> ->]. now split.
Qed.

Lemma String_inj c1 c2 s1 s2 :
  String c1 s1 = String c2 s2 -> c1 = c2 /\ s1 = s2.
Proof. intros [= -> ->]. now split. Qed.

Lemma length_padded w n : String.length (padded w n) = w.
Proof.
  revert n. induction w as [|w IH]; intros n; [reflexivity|].
  cbn [padded]. rewrite length_append, IH. cbn. lia.
Qed.

Lemma digit_inj n m :
  0 <= n < 10 -> 0 <= m < 10 -> digit n = digit m -> n = m.
Proof.
  intros Hn Hm H. unfold digit in H.
  apply (f_equal nat_of_ascii) in H.
  rewrite !nat_ascii_embedding in H by lia. lia.
Qed.

Lemma padded_inj w n m :
  0 <= n < 10 ^ Z.of_nat w -> 0 <= m < 10 ^ Z.of_nat w ->
  padded w n = padded w m -> n = m.
Proof.
  revert n m. induction w as [|w IH]; intros n m Hn Hm H.
  - cbn in Hn, Hm. lia.
  - rewrite Nat2Z.inj_succ, Z.pow_succ_r in Hn, Hm by lia.
    cbn [padded] in H.
    apply append_inj in H as [Hhi Hlo]; [|now rewrite !length_padded].
    apply String_inj in Hlo as [Hlo _].
    apply digit_inj in Hlo; try (apply Z.mod_pos_bound; lia).
    apply IH in Hhi; [|Z.div_mod_to_equations; lia..].
    Z.div_mod_to_equations. lia.
Qed.

Lemma length_isoYear y :
  String.length (isoYear y)
  = if ((0 <=? y) && (y <=? 9999))%Z then 4%nat else 7%nat.
Proof.
  unfold isoYear. destruct (andb _ _); [apply length_padded|].
  destruct (Z.leb _ _); cbn [append String.length]; now rewrite length_padded.
Qed.

Lemma isoYear_inj y1 y2 :
  -1000000 < y1 < 1000000 -> -1000000 < y2 < 1000000 ->
  isoYear y1 = isoYear y2 -> y1 = y2.
Proof.
  intros H1 H2 H. pose proof (f_equal String.length H) as Hlen.
  rewrite !length_isoYear in Hlen. unfold isoYear in H. revert H Hlen.
  destruct (Z.leb_spec 0 y1) as [A1|A1], (Z.leb_spec y1 9999) as [B1|B1],
    (Z.leb_spec 0 y2) as [A2|A2], (Z.leb_spec y2 9999) as [B2|B2];
    cbn [andb append]; intros H Hlen; try discriminate Hlen; try lia;
    first [ discriminate H
          | apply padded_inj in H; [lia | cbn; lia ..]
          | apply String_inj in H as [_ H];
            apply padded_inj in H; [lia | cbn; lia ..] ].
Qed.

Lemma DateFromTime_range t : 1 <= DateFromTime t <= 31.
Proof.
  pose proof (DayWithinYear_range t) as Hd.
  assert (Hl : DaysInYear (YearFromTime t) = 365 + InLeapYear t).
  { unfold InLeapYear. destruct (DaysInYear_cases (YearFromTime t)) as [E | E];
      rewrite E; reflexivity. }
  rewrite Hl in Hd. pose proof (InLeapYear_cases t) as Hc.
  unfold DateFromTime, MonthFromTime. cbv zeta.
  repeat match goal with |- context [if (?b <? ?c)%Z then _ else _] =>
    destruct (Z.ltb_spec b c) end; lia.
Qed.

Lemma YearFromTime_bound t :
  - maxTime <= t <= maxTime -> -1000000 < YearFromTime t < 1000000.
Proof.
  intros H. pose proof (YearFromTime_spec t) as Hy.
  assert (Hday : -100000000 <= Day t <= 100000000).
  { unfold Day, maxTime, msPerDay in *. Z.div_mod_to_equations. lia. }
  unfold DayFromYear in Hy. Z.div_mod_to_equations. lia.
Qed.

(** The day number is determined by year, month and day of month. *)
Lemma Day_of_date t :
  Day t = DayFromYear (YearFromTime t)
          + DaysBeforeMonth (MonthFromTime t) (InLeapYear t)
          + DateFromTime t - 1.
Proof.
  pose proof (DaysBeforeMonth_DateFromTime t). unfold DayWithinYear in *. lia.
Qed.

Lemma date_of_Day t1 t2 :
  Day t1 = Day t2 ->
  YearFromTime t1 = YearFromTime t2 /\ MonthFromTime t1 = MonthFromTime t2 /\
  DateFromTime t1 = DateFromTime t2.
Proof.
  intros H.
  assert (Hy : YearFromTime t1 = YearFromTime t2)
    by (unfold YearFromTime; now rewrite H).
  assert (Hl : InLeapYear t1 = InLeapYear t2)
    by (unfold InLeapYear; now rewrite Hy).
  assert (Hw : DayWithinYear t1 = DayWithinYear t2)
    by (unfold DayWithinYear; now rewrite H, Hy).
  assert (Hm : MonthFromTime t1 = MonthFromTime t2)
    by (unfold MonthFromTime; now rewrite Hw, Hl).
  repeat split; try assumption.
  unfold DateFromTime. now rewrite Hm, Hw, Hl.
Qed.

Lemma isoDate_same_day t1 t2 :
  - maxTime <= t1 <= maxTime -> - maxTime <= t2 <= maxTime ->
  isoDate t1 = isoDate t2 <-> Day t1 = Day t2.
Proof.
  intros H1 H2. split.
  - intros H. unfold isoDate in H.
    assert (Hlen : String.length (isoYear (YearFromTime t1))
                   = String.length (isoYear (YearFromTime t2))).
    { apply (f_equal String.length) in H.
      repeat (rewrite ?length_append, ?length_padded in H;
              cbn [String.length append] in H).
      lia. }
    apply append_inj in H as [Hy H]; [|exact Hlen].
    cbn [append] in H. apply String_inj in H as [_ H].
    apply append_inj in H as [Hm H]; [|now rewrite !length_padded].
    apply String_inj in H as [_ Hd].
    apply isoYear_inj in Hy; try now apply YearFromTime_bound.
    pose proof (MonthFromTime_range t1). pose proof (MonthFromTime_range t2).
    pose proof (DateFromTime_range t1). pose proof (DateFromTime_range t2).
    apply padded_inj in Hm; [|cbn; lia..].
    apply padded_inj in Hd; [|cbn; lia..].
    rewrite (Day_of_date t1), (Day_of_date t2).
    unfold InLeapYear. rewrite Hy, Hd. replace (MonthFromTime t1) with (MonthFromTime t2) by lia.
    reflexivity.
  - intros H. destruct (date_of_Day t1 t2 H) as (Hy & Hm & Hd).
    unfold isoDate. now rewrite Hy, Hm, Hd.
Qed.

(** X5.  Two valid dates get the same string from [formatDateISO]
    exactly when their time values fall on the same UTC calendar day:
    the string determines the day and nothing but the day. *)
Theorem formatDateISO_same_day (t1 t2 : Z) :
  - maxTime <= t1 <= maxTime -> - maxTime <= t2 <= maxTime ->
  formatDateISO (Some t1) = formatDateISO (Some t2) <-> Day t1 = Day t2.
Proof.
  intros H1 H2. rewrite !formatDateISO_valid.
  rewrite <- (isoDate_same_day t1 t2 H1 H2).
  split; [now intros [= ->] | now intros ->].
Qed.

(** 1 June 2024 at 00:00 and at 23:59:59.999 UTC format alike; one
    millisecond later the string is another. *)
Lemma formatDateISO_same_day_witness :
  formatDateISO (Some 1717200000000) = formatDateISO (Some 1717286399999) /\
  formatDateISO (Some 1717286399999) = Some "2024-06-01" /\
  formatDateISO (Some 1717286400000) = Some "2024-06-02".
Proof.
  split; [|split; reflexivity].
  apply (formatDateISO_same_day 1717200000000 1717286399999);
    [unfold maxTime; lia .. | reflexivity].
Defined.

End IsoDayFacts.

(* ===================================================================== *)
(** * The tasks of a cell *)
(* ===================================================================== *)

Module CellFacts.
Import JsDate JsDateFacts CalendarView IsoFacts IsoDayFacts GridFacts.
Local Open Scope string_scope.



End CellFacts.

(* ===================================================================== *)
(** * Dragging between the columns of the grid *)
(* ===================================================================== *)

Module GridDragFacts.
Import JsDate JsDateFacts Net Async CalendarView CalendarPage.
Import IsoFacts IsoDayFacts DatesFacts DragFacts GridFacts.
Local Open Scope string_scope.

(** X6.  A task dragged from column [i] and dropped on column [j]
    (of any row) of a window, in any time zone, where both columns are
    representable instants: the move is staged exactly when the two
    columns fall on different UTC calendar days, the days their ISO
    strings name.  On the same UTC day the pending move is left as it
    was; on different ones it becomes the move of the dragged task from
    the ISO date of column [i] to the different ISO date of column
    [j].  Where the zone's offset never changes, the columns are on the
    same UTC day only when [i = j]. *)
Theorem drop_on_column (LocalTZA : TimeZone) (s : State) (t0 : Z)
        (task' : HousekeepingTask) (i j : Z) :
  startDate s = Some t0 ->
  - maxTime <= t0 <= maxTime ->
  0 <= i < daysToShow s -> 0 <= j < daysToShow s ->
  let ti := UTC LocalTZA (columnLocal LocalTZA t0 i) in
  let tj := UTC LocalTZA (columnLocal LocalTZA t0 j) in
  - maxTime <= ti <= maxTime -> - maxTime <= tj <= maxTime ->
  exists s1 s2,
    nth_error (dates LocalTZA s) (Z.to_nat i) = Some (Some ti) /\
    nth_error (dates LocalTZA s) (Z.to_nat j) = Some (Some tj) /\
    formatDateISO (Some ti) = Some (isoDate ti) /\
    formatDateISO (Some tj) = Some (isoDate tj) /\
    handleDragStart task' (Some ti) s = Normal s1 /\
    handleDrop (Some tj) s1 = Normal s2 /\
    draggedTask s2 = None /\
    (Day ti = Day tj -> pendingMove s2 = pendingMove s) /\
    (Day ti <> Day tj ->
     isoDate ti <> isoDate tj /\
     pendingMove s2
     = Some {| task := task'; fromDate := isoDate ti; toDate := isoDate tj |}) /\
    (forall off, (forall t u, LocalTZA t u = off) ->
                 Day ti = Day tj <-> i = j).
Proof.
  intros Hs H0 Hi Hj ti tj Hri Hrj.
  assert (Hcol : forall k, 0 <= k < daysToShow s ->
            - maxTime <= UTC LocalTZA (columnLocal LocalTZA t0 k) <= maxTime ->
            nth_error (dates LocalTZA s) (Z.to_nat k)
            = Some (Some (UTC LocalTZA (columnLocal LocalTZA t0 k)))).
  { intros k Hk Hr. rewrite dates_nth, Hs, column_instant by assumption.
    f_equal. now apply TimeClip_in_range. }
  pose proof (isoDate_same_day ti tj Hri Hrj) as Hiff.
  destruct (handleDragStart_dragging s task' (Some ti) (isoDate ti)
              (formatDateISO_valid ti)) as (s1 & Hstart & Hdrag & Hpm & _).
  destruct (handleDrop_dragging_state s1 task' (isoDate ti) (Some tj) (isoDate tj)
              Hdrag (formatDateISO_valid tj))
    as (s2 & Hdrop & Ht & _ & Hsame & Hdiff).
  exists s1, s2.
  split; [now apply Hcol|]. split; [now apply Hcol|].
  split; [apply formatDateISO_valid|]. split; [apply formatDateISO_valid|].
  split; [exact Hstart|]. split; [exact Hdrop|]. split; [exact Ht|].
  split; [|split].
  - intros E. rewrite Hsame; [exact Hpm|]. symmetry. now apply Hiff.
  - intros Hne. split; [intros E; now apply Hne, Hiff|].
    apply Hdiff. intros E. apply Hne, Hiff. now symmetry.
  - intros off Hoff. unfold ti, tj.
    rewrite !(columnLocal_constant LocalTZA off) by assumption.
    unfold Day. rewrite !Z.div_add by (unfold msPerDay; lia). lia.
Qed.

(** In New York, for a window that starts on 9 March 2024 at 19:30
    local time, the first two columns are 10 March 00:30 and 23:30
    UTC: both format to 2024-03-10, and a task dragged from the first
    and dropped on the second stages no move. *)
Lemma drop_on_column_witness :
  let t1 := taskOf "1" "R1" "2024-03-10" in
  let s := set_tasks (Some [t1]) (initialState newYork2024 1710113400000) in
  exists s2,
    nth_error (dates newYork2024 s) 0 = Some (Some 1710030600000) /\
    nth_error (dates newYork2024 s) 1 = Some (Some 1710113400000) /\
    formatDateISO (Some 1710030600000) = Some "2024-03-10" /\
    formatDateISO (Some 1710113400000) = Some "2024-03-10" /\
    handleDrop (Some 1710113400000)
               (stateOf (handleDragStart t1 (Some 1710030600000) s)) = Normal s2 /\
    pendingMove s2 = None.
Proof.
  intros t1 s.
  destruct (drop_on_column newYork2024 s 1710030600000 t1 0 1)
    as (s1 & s2 & Hi & Hj & _ & _ & Hstart & Hdrop & _ & Hsame & _);
    [reflexivity | unfold maxTime; lia | cbn; lia | cbn; lia
     | vm_compute; split; discriminate | vm_compute; split; discriminate |].
  exists s2. split; [exact Hi|]. split; [exact Hj|].
  split; [reflexivity|]. split; [reflexivity|].
  change (UTC newYork2024 (columnLocal newYork2024 1710030600000 0))
    with 1710030600000 in Hstart.
  change (UTC newYork2024 (columnLocal newYork2024 1710030600000 1))
    with 1710113400000 in Hdrop.
  rewrite Hstart. cbn [stateOf]. split; [exact Hdrop|].
  now rewrite Hsame.
Defined.

(** X7.  While a move is staged the task is drawn twice.  For a task
    taken from the cell of [room] and [date] and dropped on a date with
    another ISO string: the origin cell lists the same tasks as before
    (the staged task among them) and does not show the empty-cell
    placeholder; the preview with the confirm and cancel buttons is
    shown in the cells of the task's own room whose date formats to the
    target date, and in no other cell. *)
Theorem staged_task_rendering (s : State) (task' : HousekeepingTask)
        (room : Room) (date date' : JsDate.Date)
        (cell : list HousekeepingTask) (from to : string) :
  getTasksForRoomAndDate s (room_id room) date = Some cell ->
  In task' cell ->
  formatDateISO date = Some from ->
  formatDateISO date' = Some to ->
  to <> from ->
  exists s1 s2,
    handleDragStart task' date s = Normal s1 /\
    handleDrop date' s1 = Normal s2 /\
    getTasksForRoomAndDate s2 (room_id room) date = Some cell /\
    emptyCellShown s2 room date = Some false /\
    previewShown s2 room date' = Some true /\
    previewShown s2 room date = Some false /\
    (forall room2 date2 d2,
        formatDateISO date2 = Some d2 ->
        previewShown s2 room2 date2
        = Some ((to =? d2) && (room_id room =? room_id room2))).
Proof.
  intros Hcell Hin Hfrom Hto Hne.
  assert (Hroom : roomId task' = room_id room).
  { unfold getTasksForRoomAndDate in Hcell. rewrite Hfrom in Hcell.
    destruct (tasks s) as [ts|]; [|discriminate].
    cbv zeta in Hcell.
    assert (Hin' : In task' (filter (fun t => (roomId t =? room_id room)
                                           && (taskDate t =? from)) ts)).
    { destruct (negb (statusFilter s =? "all")); injection Hcell as <-;
        [apply filter_In in Hin as [Hin _]|]; exact Hin. }
    apply filter_In in Hin' as [_ Hb].
    apply andb_prop in Hb as [Hb _]. now apply String.eqb_eq. }
  destruct (handleDragStart_dragging s task' date from Hfrom)
    as (s1 & Hstart & Hdrag & _ & _).
  exists s1.
  unfold handleDragStart in Hstart. rewrite Hfrom in Hstart.
  injection Hstart as <-.
  unfold handleDrop. cbn [draggedTask draggedFromDate set_draggedFromDate set_draggedTask].
  destruct Hdrag as (_ & _ & Htruthy). rewrite Htruthy, Hto. cbn [negb].
  destruct (String.eqb_spec to from) as [E | _]; [contradiction|].
  eexists. split; [unfold handleDragStart; now rewrite Hfrom|].
  split; [reflexivity|].
  assert (Hsame : forall r d,
            getTasksForRoomAndDate
              (set_draggedFromDate None
                 (set_draggedTask None
                    (set_pendingMove
                       (Some {| task := task'; fromDate := from; toDate := to |})
                       (set_draggedFromDate (Some from)
                          (set_draggedTask (Some task') s))))) r d
            = getTasksForRoomAndDate s r d) by reflexivity.
  split; [now rewrite Hsame|].
  split.
  { unfold emptyCellShown. rewrite Hsame, Hcell.
    destruct cell as [|x cell]; [contradiction | reflexivity]. }
  unfold previewShown. cbn [pendingMove set_draggedFromDate set_draggedTask
                            set_pendingMove toDate task].
  rewrite Hto, Hfrom, Hroom, !String.eqb_refl.
  split; [reflexivity|]. split.
  { destruct (String.eqb_spec to from); [contradiction | reflexivity]. }
  intros room2 date2 d2 Hd2. now rewrite Hd2.
Qed.

Lemma staged_task_rendering_witness :
  let t1 := taskOf "1" "R1" "2024-06-01" in
  let s := set_tasks (Some [t1]) (initialState (JsDate.fixedOffset 0) 1717279200000) in
  let s2 := stateOf (handleDrop (Some 1717372800000)
                       (stateOf (handleDragStart t1 (Some 1717200000000) s))) in
  getTasksForRoomAndDate s2 "R1" (Some 1717200000000) = Some [t1] /\
  previewShown s2 (roomLabelled "R1") (Some 1717372800000) = Some true /\
  previewShown s2 (roomLabelled "R2") (Some 1717372800000) = Some false.
Proof.
  intros t1 s s2.
  destruct (staged_task_rendering s t1 (roomLabelled "R1")
              (Some 1717200000000) (Some 1717372800000) [t1]
              "2024-06-01" "2024-06-03")
    as (s1 & s2' & Hstart & Hdrop & Hcell & _ & Hprev & _ & Hother);
    [reflexivity | now left | reflexivity | reflexivity | discriminate |].
  assert (E : s2 = s2').
  { unfold s2. rewrite Hstart. cbn [stateOf]. now rewrite Hdrop. }
  rewrite E. split; [exact Hcell|]. split; [exact Hprev|].
  now rewrite (Hother (roomLabelled "R2") (Some 1717372800000) "2024-06-03").
Defined.

End GridDragFacts.

(* ===================================================================== *)
(** * Mounting the calendar *)
(* ===================================================================== *)

Module MountFacts.
Import Net Async AsyncAll CalendarView CalendarPage.
Local Open Scope string_scope.

(** X8.  [onMounted] sends the rooms request and the tasks request
    before any response is looked at, and finishes only when both
    responses are in.  The order in which they arrive does not matter
    for the rooms, the tasks, the loading flag (lowered at the end) and
    the day count; the two final states are the same unless both
    fetches fail, in which case the message shown is that of the fetch
    whose response came last. *)
Theorem onMounted_order (o_r o_t : FetchOutcome Json) (container : option Z)
        (s : State) :
  exists sa sb,
    onMounted [(First, o_r); (Second, o_t)] container s
    = Some (sa, [Net.get (API_URL ++ "/rooms"); tasksRequest]) /\
    onMounted [(Second, o_t); (First, o_r)] container s
    = Some (sb, [Net.get (API_URL ++ "/rooms"); tasksRequest]) /\
    onMounted [] container s = None /\
    onMounted [(First, o_r)] container s = None /\
    onMounted [(Second, o_t)] container s = None /\
    rooms sa = rooms sb /\ tasks sa = tasks sb /\
    loading sa = false /\ loading sb = false /\
    daysToShow sa = daysToShow sb /\
    rooms sa = match o_r with
               | Response _ (Some (JObject data)) => j_rooms data
               | _ => rooms s
               end /\
    tasks sa = match o_t with
               | Response _ (Some (JObject data)) => j_tasks data
               | _ => tasks s
               end /\
    (hasObject o_r || hasObject o_t = true -> sa = sb) /\
    (hasObject o_r = false -> hasObject o_t = false ->
     error sa = "Failed to fetch tasks" /\ error sb = "Failed to fetch rooms").
Proof.
  unfold onMounted. cbn.
  destruct o_r as [|okr [[|dr]|]], o_t as [|okt [[|dt]|]]; cbn;
    (do 2 eexists; split; [reflexivity|]; split; [reflexivity|]);
    destruct container as [w|]; cbn;
    repeat split; try reflexivity; try discriminate.
Qed.

End MountFacts.

(* ===================================================================== *)
(** * The other actions of the task manager *)
(* ===================================================================== *)

Module TaskActionFacts.
Import Net Async HousekeepingTaskManager TaskActions.
Local Open Scope string_scope.

Ltac outcome_cases o := destruct o as [|[|] [[|?data]|]].

Lemma fetchTasks_listed s :
  exists k,
    fetchTasks s = Await s (listRequest s) k /\
    forall o sb, k o sb = Done tt (listed o sb).
Proof.
  unfold fetchTasks, listRequest, filterParams. cbn.
  destruct (JsString.truthy (dateFilter s)),
    (statusFilter s =? "all"), (userFilter s =? "all"); cbn;
    (eexists; split; [reflexivity|]);
    intros o sb; destruct o as [|ok [[|data]|]]; reflexivity.
Qed.

Lemma run_fetchTasks_then (g : State -> State) s o net :
  run (bindP (fetchTasks s) (fun _ => modify g)) (o :: net)
  = Some (g (listed o s), [listRequest s]).
Proof.
  destruct (fetchTasks_listed s) as (k & -> & Hk). cbn. now rewrite Hk.
Qed.

Lemma run_fetchTasks_pending (g : State -> State) s :
  run (bindP (fetchTasks s) (fun _ => modify g)) [] = None.
Proof. destruct (fetchTasks_listed s) as (k & -> & Hk). reflexivity. Qed.

Lemma listed_tasks o s :
  tasks (listed o s) = match o with
                       | Response _ (Some (JObject data)) => j_tasks data
                       | _ => tasks s
                       end /\
  error (listed o s) = match o with
                       | Response _ (Some (JObject data)) => error s
                       | _ => "Failed to fetch tasks"
                       end /\
  loading (listed o s) = loading s /\ formData (listed o s) = formData s /\
  editingTask (listed o s) = editingTask s.
Proof. destruct o as [|ok [[|data]|]]; repeat split. Qed.

(** X9.  With the three required fields filled in, [addTask] raises
    the loading flag, clears the error and suspends on the POST of the
    seven fields of the form, having changed nothing else.  Resumed
    with a 2xx response with a JSON body it resets the form and
    suspends again, on the request for the task list under the current
    filters, with the loading flag as it was (so still raised while
    that request is in flight); resumed with the answer it takes the
    task list from it and only then lowers the loading flag.  Run to
    the end, the form is blank, edit mode is left, the loading flag is
    lowered, and the task list is the one of the second response (or
    unchanged, with the fetch error shown, when that request fails). *)
Theorem addTask_success (now : Z) (s : State) :
  JsString.truthy (f_roomId (formData s)) = true ->
  JsString.truthy (f_assignedUserId (formData s)) = true ->
  JsString.truthy (f_taskDate (formData s)) = true ->
  inFlight (addTask now s) = Some (postRequest (formData s)) /\
  loading (yielded (addTask now s)) = true /\
  error (yielded (addTask now s)) = "" /\
  (exists k1,
     addTask now s
     = Await (set_error "" (set_loading true s)) (postRequest (formData s)) k1 /\
     forall json sa, exists k2,
       k1 (Response true (Some json)) sa
       = Await (resetForm now sa) (listRequest sa) k2 /\
       loading (resetForm now sa) = loading sa /\
       forall o sb, k2 o sb = Done tt (set_loading false (listed o sb))) /\
  forall json o,
    exists s3,
      run (addTask now s) [Response true (Some json); o]
      = Some (s3, [postRequest (formData s); listRequest s]) /\
      formData s3 = blankForm now /\
      editingTask s3 = None /\
      loading s3 = false /\
      tasks s3 = match o with
                 | Response _ (Some (JObject data)) => j_tasks data
                 | _ => tasks s
                 end /\
      error s3 = match o with
                 | Response _ (Some (JObject data)) => ""
                 | _ => "Failed to fetch tasks"
                 end.
Proof.
  intros H1 H2 H3. unfold addTask. cbn -[fetchTasks]. rewrite H1, H2, H3.
  cbn -[fetchTasks]. split; [reflexivity|]. split; [reflexivity|].
  split; [reflexivity|]. split.
  - eexists. split; [reflexivity|]. intros json sa. cbn -[fetchTasks].
    destruct (fetchTasks_listed (resetForm now sa)) as (k & Hk & Hk').
    rewrite Hk. cbn. eexists. split; [reflexivity|]. split; [reflexivity|].
    intros o sb. now rewrite Hk'.
  - intros json o. rewrite run_fetchTasks_then.
    eexists; split; [reflexivity|].
    destruct o as [|ok [[|data]|]]; repeat split.
Qed.

(** X10.  With a valid form, when the POST is not answered by a 2xx
    response with a JSON body, [addTask] sends nothing else: the form
    keeps what the user typed, the task list is unchanged, the loading
    flag is lowered and a non-empty error is shown.  A response without
    a JSON body counts as such a failure even when its status is 2xx,
    because the body is parsed before the status is looked at. *)
Theorem addTask_failure (now : Z) (s : State) (o : FetchOutcome Json) :
  JsString.truthy (f_roomId (formData s)) = true ->
  JsString.truthy (f_assignedUserId (formData s)) = true ->
  JsString.truthy (f_taskDate (formData s)) = true ->
  accepted o = false ->
  accepted (Response true None) = false /\
  exists s3,
    run (addTask now s) [o] = Some (s3, [postRequest (formData s)]) /\
    formData s3 = formData s /\
    editingTask s3 = editingTask s /\
    tasks s3 = tasks s /\
    loading s3 = false /\
    JsString.truthy (error s3) = true /\
    (forall ok, o = Response ok None -> error s3 = "Failed to add task").
Proof.
  intros H1 H2 H3 Ho. split; [reflexivity|].
  unfold addTask. cbn -[fetchTasks]. rewrite H1, H2, H3.
  outcome_cases o; try discriminate Ho; cbn;
    (eexists; split; [reflexivity|]); repeat split; cbn;
    auto using ConfirmFacts.orElse_truthy; intros; try discriminate; reflexivity.
Qed.

(** X11.  [updateTask] does nothing at all outside edit mode.  In
    edit mode it sends a PUT to the resource of the task being edited
    with the seven fields of the form, whatever they hold (the
    required-field test of [addTask] is not made).  On success the form
    is blanked, edit mode is left and the list is fetched once; on
    failure the form and edit mode are kept, so the user can retry, the
    task list is unchanged and a non-empty error is shown. *)
Theorem updateTask_outcomes (now : Z) (s : State) :
  (editingTask s = None -> updateTask now s = Done tt s) /\
  forall editing,
    editingTask s = Some editing ->
    inFlight (updateTask now s) = Some (updateRequest editing (formData s)) /\
    loading (yielded (updateTask now s)) = true /\
    (forall json o,
        exists s3,
          run (updateTask now s) [Response true (Some json); o]
          = Some (s3, [updateRequest editing (formData s); listRequest s]) /\
          formData s3 = blankForm now /\ editingTask s3 = None /\
          loading s3 = false /\
          tasks s3 = match o with
                     | Response _ (Some (JObject data)) => j_tasks data
                     | _ => tasks s
                     end) /\
    (forall o,
        accepted o = false ->
        exists s3,
          run (updateTask now s) [o]
          = Some (s3, [updateRequest editing (formData s)]) /\
          formData s3 = formData s /\ editingTask s3 = Some editing /\
          tasks s3 = tasks s /\ loading s3 = false /\
          JsString.truthy (error s3) = true).
Proof.
  split.
  - intros H. unfold updateTask. cbn. now rewrite H.
  - intros editing H. unfold updateTask. cbn -[fetchTasks]. rewrite H.
    cbn -[fetchTasks]. repeat split.
    + intros json o. rewrite run_fetchTasks_then.
      eexists; split; [reflexivity|].
      destruct o as [|ok [[|data]|]]; repeat split.
    + intros o Ho.
      outcome_cases o; try discriminate Ho; cbn;
        (eexists; split; [reflexivity|]); repeat split; cbn;
        auto using ConfirmFacts.orElse_truthy.
Qed.

Lemma addTask_success_witness :
  let form := {| f_roomId := "R1"; f_assignedUserId := "u1";
                 f_taskDate := "2024-06-01"; f_taskType := cleaning;
                 f_priority := high; f_status := pending; f_notes := "" |} in
  let s := set_formData form (initialState 1717200000000) in
  (exists k1 s1,
     addTask 1717200000000 s = Await s1 (postRequest form) k1 /\
     loading (yielded (k1 (Response true (Some JNull)) s1)) = true /\
     inFlight (k1 (Response true (Some JNull)) s1)
     = Some (Net.get "http://localhost:3000/housekeeping-tasks")) /\
  exists s3,
    run (addTask 1717200000000 s)
        [Response true (Some JNull);
         Response true (Some (JObject {| j_error := None; j_tasks := Some [] |}))]
    = Some (s3, [postRequest form;
                 Net.get "http://localhost:3000/housekeeping-tasks"]) /\
    formData s3 = blankForm 1717200000000 /\ loading s3 = false.
Proof.
  intros form s.
  destruct (addTask_success 1717200000000 s eq_refl eq_refl eq_refl)
    as (_ & _ & _ & (k1 & Hk1 & Hres) & Hrun).
  split.
  - exists k1, (set_error "" (set_loading true s)). split; [exact Hk1|].
    destruct (Hres JNull (set_error "" (set_loading true s)))
      as (k2 & -> & Hload & _).
    split; [exact Hload | reflexivity].
  - destruct (Hrun JNull
                (Response true (Some (JObject {| j_error := None; j_tasks := Some [] |}))))
      as (s3 & Hs3 & Hform & _ & Hload & _).
    exists s3. split; [exact Hs3|]. split; [exact Hform | exact Hload].
Defined.

Lemma addTask_failure_witness :
  let form := {| f_roomId := "R1"; f_assignedUserId := "u1";
                 f_taskDate := "2024-06-01"; f_taskType := cleaning;
                 f_priority := high; f_status := pending; f_notes := "" |} in
  let s := set_formData form (initialState 1717200000000) in
  exists s3,
    run (addTask 1717200000000 s) [Response true None]
    = Some (s3, [postRequest form]) /\
    formData s3 = form /\ error s3 = "Failed to add task".
Proof.
  intros form s.
  destruct (addTask_failure 1717200000000 s (Response true None)
              eq_refl eq_refl eq_refl eq_refl)
    as (_ & s3 & Hs3 & Hform & _ & _ & _ & _ & Herr).
  exists s3. split; [exact Hs3|]. split; [exact Hform | exact (Herr true eq_refl)].
Defined.

(** X12.  [startEdit] enters edit mode for the task and copies its
    seven editable fields into the form (absent notes become the empty
    string), leaving the task list, the loading flag and the error as
    they are; submitting then sends exactly those values back to the
    task's own resource.  [resetForm] after it (the Cancel button)
    leaves edit mode with a blank form and no error, and a submit then
    takes the add path, which sends nothing and asks for the required
    fields. *)
Theorem startEdit_submit (now : Z) (task : HousekeepingTask) (s : State) :
  let s1 := startEdit task s in
  let s2 := resetForm now s1 in
  editingTask s1 = Some task /\
  formBody (formData s1)
  = [("roomId", roomId task); ("assignedUserId", assignedUserId task);
     ("taskDate", taskDate task); ("taskType", taskType_str (taskType task));
     ("priority", priority_str (priority task));
     ("status", status_str (status task)); ("notes", orElse (notes task) "")] /\
  tasks s1 = tasks s /\ loading s1 = loading s /\ error s1 = error s /\
  inFlight (submit now s1) = Some (updateRequest task (formData s1)) /\
  editingTask s2 = None /\ formData s2 = blankForm now /\ error s2 = "" /\
  inFlight (submit now s2) = None /\
  error (yielded (submit now s2))
  = "Room, assigned user, and task date are required".
Proof. repeat split. Qed.

(** X13.  [deleteTask] does nothing when the confirmation dialog is
    declined.  When it is accepted it sends a DELETE for the task's
    resource, without body; on a 2xx response (whatever its body) the
    list is fetched once and the loading flag lowered; on any other
    outcome nothing else is sent, the task list is unchanged, the
    loading flag is lowered and a non-empty error is shown. *)
Theorem deleteTask_outcomes (taskId : string) (s : State) :
  deleteTask false taskId s = Done tt s /\
  inFlight (deleteTask true taskId s) = Some (deleteRequest taskId) /\
  loading (yielded (deleteTask true taskId s)) = true /\
  (forall json o,
      exists s3,
        run (deleteTask true taskId s) [Response true json; o]
        = Some (s3, [deleteRequest taskId; listRequest s]) /\
        loading s3 = false /\
        tasks s3 = match o with
                   | Response _ (Some (JObject data)) => j_tasks data
                   | _ => tasks s
                   end) /\
  (forall o,
      failed o = true ->
      exists s3,
        run (deleteTask true taskId s) [o] = Some (s3, [deleteRequest taskId]) /\
        tasks s3 = tasks s /\ formData s3 = formData s /\
        loading s3 = false /\ JsString.truthy (error s3) = true).
Proof.
  split; [reflexivity|]. unfold deleteTask. cbn -[fetchTasks]. repeat split.
  - intros json o. rewrite run_fetchTasks_then.
    eexists; split; [reflexivity|].
    destruct o as [|ok [[|data]|]]; repeat split.
  - intros o Ho.
    outcome_cases o; try discriminate Ho; cbn;
      (eexists; split; [reflexivity|]); repeat split; cbn;
      auto using ConfirmFacts.orElse_truthy.
Qed.

(** X14.  The Start button is offered exactly for pending tasks and
    the Complete button exactly for tasks in progress.  [startTask] and
    [completeTask] send a PUT to the task's resource whose body has the
    single member [status], [in_progress] and [completed] respectively;
    on a 2xx response the list is fetched once and the loading flag
    lowered, and on any other outcome nothing else is sent, the task
    list is unchanged and a non-empty error is shown. *)
Theorem status_actions (task : HousekeepingTask) (s : State) :
  (startOffered task = true <-> status task = pending) /\
  (completeOffered task = true <-> status task = in_progress) /\
  inFlight (startTask task s) = Some (statusRequest task in_progress) /\
  inFlight (completeTask task s) = Some (statusRequest task completed) /\
  (forall json o,
      exists s3 s3',
        run (startTask task s) [Response true json; o]
        = Some (s3, [statusRequest task in_progress; listRequest s]) /\
        run (completeTask task s) [Response true json; o]
        = Some (s3', [statusRequest task completed; listRequest s]) /\
        loading s3 = false /\ loading s3' = false /\ tasks s3 = tasks s3' /\
        tasks s3 = match o with
                   | Response _ (Some (JObject data)) => j_tasks data
                   | _ => tasks s
                   end) /\
  (forall o,
      failed o = true ->
      exists s3 s3',
        run (startTask task s) [o] = Some (s3, [statusRequest task in_progress]) /\
        run (completeTask task s) [o] = Some (s3', [statusRequest task completed]) /\
        tasks s3 = tasks s /\ tasks s3' = tasks s /\
        loading s3 = false /\ loading s3' = false /\
        JsString.truthy (error s3) = true /\
        JsString.truthy (error s3') = true).
Proof.
  split; [|split].
  - unfold startOffered. destruct (status task); cbn; split; congruence.
  - unfold completeOffered. destruct (status task); cbn; split; congruence.
  - unfold startTask, completeTask. cbn -[fetchTasks]. repeat split.
    + intros json o. rewrite !run_fetchTasks_then.
      do 2 eexists; split; [reflexivity|]; split; [reflexivity|].
      destruct o as [|ok [[|data]|]]; repeat split.
    + intros o Ho.
      outcome_cases o; try discriminate Ho; cbn;
        (do 2 eexists; split; [reflexivity|]; split; [reflexivity|]);
        repeat split; cbn; auto using ConfirmFacts.orElse_truthy.
Qed.

End TaskActionFacts.

Module QueryFacts.
Import Net Async JsString HousekeepingTaskManager TaskActions TaskActionFacts.
Local Open Scope string_scope.

Lemma occurrences_app c a b :
  occurrences c (a ++ b) = (occurrences c a + occurrences c b)%nat.
Proof.
  induction a as [|x a IH]; cbn; [reflexivity|]. rewrite IH. lia.
Qed.

(** An encoded code unit holds none of the separators of a query. *)
Lemma urlencodeUnit_safe c :
  occurrences "&" (urlencodeUnit c) = 0%nat /\
  occurrences "=" (urlencodeUnit c) = 0%nat /\
  occurrences "?" (urlencodeUnit c) = 0%nat.
Proof.
  destruct c as [[] [] [] [] [] [] [] []]; vm_compute; repeat split.
Qed.

Lemma urlencode_safe v :
  occurrences "&" (urlencode v) = 0%nat /\
  occurrences "=" (urlencode v) = 0%nat /\
  occurrences "?" (urlencode v) = 0%nat.
Proof.
  induction v as [|c v (IH1 & IH2 & IH3)]; [repeat split|].
  cbn [urlencode]. rewrite !occurrences_app, IH1, IH2, IH3.
  destruct (urlencodeUnit_safe c) as (-> & -> & ->). repeat split.
Qed.

Lemma searchParams_separators params :
  occurrences "=" (searchParamsToString params) = List.length params /\
  occurrences "&" (searchParamsToString params) = pred (List.length params) /\
  occurrences "?" (searchParamsToString params) = 0%nat.
Proof.
  induction params as [|[k v] rest (IH1 & IH2 & IH3)]; [repeat split|].
  destruct (urlencode_safe k) as (Hk1 & Hk2 & Hk3).
  destruct (urlencode_safe v) as (Hv1 & Hv2 & Hv3).
  destruct rest as [|p rest].
  - cbn [searchParamsToString].
    rewrite !occurrences_app, Hk1, Hk2, Hk3, Hv1, Hv2, Hv3. repeat split.
  - change (searchParamsToString ((k, v) :: p :: rest))
      with (urlencode k ++ "=" ++ urlencode v ++ "&"
            ++ searchParamsToString (p :: rest)).
    rewrite !occurrences_app, Hk1, Hk2, Hk3, Hv1, Hv2, Hv3, IH1, IH2, IH3.
    cbn. repeat split; lia.
Qed.

(** X15.  [fetchTasks] sends one GET and assigns the [tasks] member of
    the response (or sets the fetch error).  The URL is the bare list
    resource exactly when no filter is set (empty date, both selects on
    all); otherwise it carries the filters that are set, in the order
    date, status, userId.  Whatever the filter values hold, they are
    encoded: the URL has one question mark, one equals sign for each
    filter that is set and one ampersand between two of them, so a
    value cannot add or split a parameter. *)
Theorem fetchTasks_query (s : State) :
  exists k,
    fetchTasks s = Await s (listRequest s) k /\
    (forall o sb, k o sb = Done tt (listed o sb)) /\
    (filterParams s = [] <->
     dateFilter s = "" /\ statusFilter s = "all" /\ userFilter s = "all") /\
    (filterParams s = [] ->
     url (listRequest s) = "http://localhost:3000/housekeeping-tasks") /\
    (filterParams s <> [] ->
     url (listRequest s)
     = "http://localhost:3000/housekeeping-tasks?"
       ++ searchParamsToString (filterParams s)) /\
    (exists keys,
        map fst (filterParams s) = keys /\
        In keys [[]; ["date"]; ["status"]; ["userId"]; ["date"; "status"];
                 ["date"; "userId"]; ["status"; "userId"];
                 ["date"; "status"; "userId"]]) /\
    occurrences "=" (url (listRequest s)) = List.length (filterParams s) /\
    occurrences "&" (url (listRequest s)) = pred (List.length (filterParams s)) /\
    occurrences "?" (url (listRequest s))
    = (if Nat.eqb (List.length (filterParams s)) 0 then 0 else 1)%nat.
Proof.
  destruct (fetchTasks_listed s) as (k & Hk & Hcont).
  exists k. split; [exact Hk|]. split; [exact Hcont|].
  split.
  { unfold filterParams.
    destruct (dateFilter s) as [|c d]; cbn;
      destruct (String.eqb_spec (statusFilter s) "all") as [-> | Hs];
      destruct (String.eqb_spec (userFilter s) "all") as [-> | Hu]; cbn;
      split; try discriminate; try tauto; intros (H1 & H2 & H3);
      congruence. }
  split.
  { unfold listRequest. now intros ->. }
  split.
  { unfold listRequest. destruct (filterParams s); [congruence | reflexivity]. }
  split.
  { eexists; split; [reflexivity|]. unfold filterParams.
    destruct (JsString.truthy (dateFilter s)), (statusFilter s =? "all"),
      (userFilter s =? "all"); cbn; tauto. }
  unfold listRequest.
  destruct (searchParams_separators (filterParams s)) as (H1 & H2 & H3).
  destruct (filterParams s) as [|p ps] eqn:E; [repeat split|].
  cbn [url Net.get]. rewrite !occurrences_app, H1, H2, H3. repeat split.
Qed.

Example fetchTasks_url_example :
  url (listRequest (set_formData (blankForm 0)
                      {| tasks := Some []; loading := false; error := "";
                         editingTask := None; dateFilter := "2024-06-01";
                         statusFilter := "all"; userFilter := "u 7&x=1";
                         formData := blankForm 0 |}))
  = "http://localhost:3000/housekeeping-tasks?date=2024-06-01&userId=u+7%26x%3D1".
Proof. reflexivity. Qed.

End QueryFacts.

(* ===================================================================== *)
(** * Guards, races and the time zone *)
(* ===================================================================== *)

Module EdgeFacts.
Import JsDate JsDateFacts Net Async CalendarView CalendarPage.
Import IsoFacts IsoDayFacts DatesFacts DragFacts.
Local Open Scope string_scope.

(** X16.  The handlers of the drag workflow are guarded.  A drop with
    no drag in flight (no dragged task, or no origin date) changes
    nothing.  A drag started from an invalid date throws after recording
    the task and nothing else, so the origin date stays what it was: if
    there was none the drop that follows is ignored, and if the origin
    of an earlier drag was still recorded the drop on another date
    stages a move of the new task from that earlier origin.  A drop on
    an invalid date throws and leaves the drag in flight;
    [confirmMove] with nothing pending returns at once and sends
    nothing; [cancelMove] with nothing pending changes nothing. *)
Theorem drag_guards (s : State) (task' : HousekeepingTask)
        (date : JsDate.Date) :
  (draggedTask s = None \/ draggedFromDate s = None ->
   handleDrop date s = Normal s) /\
  (exists s1,
     handleDragStart task' None s = Thrown s1 /\
     s1 = set_draggedTask (Some task') s /\
     draggedTask s1 = Some task' /\
     draggedFromDate s1 = draggedFromDate s /\
     (draggedFromDate s = None -> handleDrop date s1 = Normal s1) /\
     (forall stale to,
         draggedFromDate s = Some stale -> JsString.truthy stale = true ->
         formatDateISO date = Some to -> to <> stale ->
         exists s2,
           handleDrop date s1 = Normal s2 /\
           pendingMove s2
           = Some {| task := task'; fromDate := stale; toDate := to |})) /\
  (forall dragged from,
      Dragging s dragged from -> handleDrop None s = Thrown s) /\
  (pendingMove s = None ->
   confirmMove s = Done tt s /\ cancelMove s = s).
Proof.
  split; [|split; [|split]].
  - intros [H | H]; unfold handleDrop; rewrite H; [reflexivity|].
    now destruct (draggedTask s).
  - eexists. split; [reflexivity|]. split; [reflexivity|].
    split; [reflexivity|]. split; [reflexivity|]. split.
    + intros H. unfold handleDrop. cbn. now rewrite H.
    + intros stale to Hstale Htruthy Hto Hne.
      destruct (handleDrop_dragging_state (set_draggedTask (Some task') s)
                  task' stale date to) as (s2 & Hdrop & _ & _ & _ & Hdiff);
        [repeat split; assumption | assumption |].
      exists s2. split; [exact Hdrop | exact (Hdiff Hne)].
  - intros dragged from (Ht & Hf & Htruthy).
    unfold handleDrop. now rewrite Ht, Hf, Htruthy.
  - intros H. split.
    + unfold confirmMove. cbn. now rewrite H.
    + unfold cancelMove. destruct s; cbn in *. now rewrite H.
Qed.

Lemma gridRendered_loading s : loading s = true -> gridRendered s = Some false.
Proof. intros H. unfold gridRendered. now rewrite H. Qed.

(** X17.  The grid is hidden for as long as a confirmation is in
    flight.  With a move [pm] pending, [confirmMove] raises [loading]
    before it suspends on the PUT for [pm], so the calendar container
    (and with it every draggable task block and every drop cell) is
    not rendered.  Resumed with the response in a state where
    [loading] is still raised, the handler either finishes, with
    [loading] lowered, or suspends once more, on the re-fetch of the
    list, with the grid still hidden; [loading] is lowered only when
    that re-fetch has been answered. *)
Theorem grid_hidden_during_confirm (s : State) (pm : PendingMove)
        (o : FetchOutcome Json) :
  pendingMove s = Some pm ->
  exists k1 s1,
    confirmMove s = Await s1 (putRequest pm) k1 /\
    loading s1 = true /\ gridRendered s1 = Some false /\
    forall sa, loading sa = true ->
      (failed o = true ->
       exists s3, k1 o sa = Done tt s3 /\ loading s3 = false) /\
      (failed o = false ->
       exists k2 sb,
         k1 o sa = Await sb tasksRequest k2 /\
         loading sb = true /\ gridRendered sb = Some false /\
         forall o2 sc, exists s3,
             k2 o2 sc = Done tt s3 /\ loading s3 = false).
Proof.
  intros Hpm. unfold confirmMove. cbn. rewrite Hpm. cbn.
  eexists _, _. split; [reflexivity|]. split; [reflexivity|].
  split; [reflexivity|]. intros sa Hsa.
  destruct o as [|[|] [[|data]|]]; cbn;
    (split; intros Hf; try discriminate Hf);
    try (eexists; split; reflexivity);
    (eexists _, _; split; [reflexivity|]; split; [exact Hsa|];
     split; [now apply gridRendered_loading|];
     intros o2 sc; destruct o2 as [|ok2 [[|d2]|]]; cbn;
     eexists; split; reflexivity).
Qed.

Lemma grid_hidden_during_confirm_witness :
  let t1 := taskOf "1" "R1" "2024-06-01" in
  let pm := {| task := t1; fromDate := "2024-06-01"; toDate := "2024-06-03" |} in
  let s := set_pendingMove (Some pm)
             (set_rooms (Some [roomLabelled "101"])
                (set_tasks (Some [t1])
                   (initialState (JsDate.fixedOffset 0) 1717279200000))) in
  gridRendered s = Some true /\
  exists k1 s1,
    confirmMove s = Await s1 (putRequest pm) k1 /\
    gridRendered s1 = Some false /\
    gridRendered (yielded (k1 (Response true None) s1)) = Some false.
Proof.
  intros t1 pm s. split; [reflexivity|].
  destruct (grid_hidden_during_confirm s pm (Response true None) eq_refl)
    as (k1 & s1 & Hk & Hload & Hgrid & Hres).
  exists k1, s1. split; [exact Hk|]. split; [exact Hgrid|].
  destruct (Hres s1 Hload) as [_ Hok].
  destruct (Hok eq_refl) as (k2 & sb & -> & _ & Hsb & _). exact Hsb.
Defined.

Section Zone.
Variable LocalTZA : TimeZone.

Lemma Day_vs_localDay t :
  Day t = localDay LocalTZA t
          + (TimeWithinDay (LocalTime LocalTZA t) - LocalTZA t true) / msPerDay.
Proof.
  unfold localDay, Day, TimeWithinDay, LocalTime, msPerDay.
  Z.div_mod_to_equations. lia.
Qed.

(** X18.  The tasks a column lists are those of the UTC calendar day
    of its time value, while its header shows the calendar day of the
    host's time zone.  For a representable date the two agree exactly
    when the local time of day is at least the zone's offset from UTC
    at that time (and, for a negative offset, less than a day plus the
    offset).  So on a host east of Greenwich a column whose local time
    of day is earlier than the offset lists the tasks of the day before
    the one in its header, and on a host at UTC the two always agree. *)
Theorem column_day_vs_header (t : Z) :
  - maxTime <= t <= maxTime ->
  - maxTime <= LocalTime LocalTZA t <= maxTime ->
  (formatDateISO (Some t) = Some (localIso LocalTZA t) <->
   LocalTZA t true <= TimeWithinDay (LocalTime LocalTZA t)
   < msPerDay + LocalTZA t true) /\
  (0 < LocalTZA t true <= msPerDay ->
   TimeWithinDay (LocalTime LocalTZA t) < LocalTZA t true ->
   Day t = localDay LocalTZA t - 1) /\
  (LocalTZA t true = 0 -> formatDateISO (Some t) = Some (localIso LocalTZA t)).
Proof.
  intros Ht Hl.
  assert (Hiff : formatDateISO (Some t) = Some (localIso LocalTZA t) <->
                 LocalTZA t true <= TimeWithinDay (LocalTime LocalTZA t)
                 < msPerDay + LocalTZA t true).
  { rewrite formatDateISO_valid. unfold localIso.
    assert (E : Some (isoDate t) = Some (isoDate (LocalTime LocalTZA t))
                <-> Day t = Day (LocalTime LocalTZA t)).
    { rewrite <- (isoDate_same_day t (LocalTime LocalTZA t) Ht Hl).
      split; [now intros [= ->] | now intros ->]. }
    rewrite E, Day_vs_localDay. unfold localDay.
    unfold msPerDay. Z.div_mod_to_equations. lia. }
  split; [exact Hiff|]. split.
  - intros Hpos Hearly. rewrite Day_vs_localDay.
    unfold TimeWithinDay, msPerDay in *. Z.div_mod_to_equations. lia.
  - intros H0. apply Hiff. rewrite H0.
    unfold TimeWithinDay, msPerDay. Z.div_mod_to_equations. lia.
Qed.

End Zone.

(** Ten hours east of Greenwich, a column at 08:00 local time on 1 June
    2024 lists the tasks dated 2024-05-31; its header shows 1 June. *)
Lemma column_day_vs_header_witness :
  formatDateISO (Some 1717192800000) = Some "2024-05-31" /\
  localIso (JsDate.fixedOffset 36000000) 1717192800000 = "2024-06-01" /\
  Day 1717192800000 = localDay (JsDate.fixedOffset 36000000) 1717192800000 - 1.
Proof.
  destruct (column_day_vs_header (fixedOffset 36000000) 1717192800000)
    as (_ & Hearly & _);
    [unfold maxTime; lia | unfold LocalTime, fixedOffset, maxTime; lia |].
  split; [reflexivity|]. split; [reflexivity|].
  apply Hearly; [unfold fixedOffset, msPerDay; lia | reflexivity].
Defined.

End EdgeFacts.
